(** * CNN Classifier Pro: the simulated training run and the Gemini gateway

    A shallow embedding of [simulateTraining] (src/App.tsx) and of
    [analyzeClassification] / [generateFinalReport] (src/geminiService.ts),
    with the properties of the metrics simulator and of the analysis
    gateway stated over it.

    Numbers: the metric values are JavaScript numbers; they are modelled as
    exact rationals [Q], the epoch counters as [Z].  The three calls of
    [Math.random()] made by one tick are an input of the tick ([Draws]);
    the runtime promises a value in [0, 1) for each ([unit_draws]).

    State: the component's [useState] cells [isTraining] and [trainingData]
    and the runtime's table of intervals form the state [App]; every handler
    is a function on it.  A functional update [setTrainingData(prev => ..)]
    queues its updater, which React runs at the next render, after the
    callback that queued it has returned: the updater of a tick reads the
    closure's [currentEpoch] as the [currentEpoch++] that ends the callback
    has left it.  A tick is one event, the callback and the render that
    follows it; the cadence of 400 ms is not modelled. *)

From Stdlib Require Import ZArith QArith Qminmax Lqa Lia Ascii String.
From stdpp Require Import base option list gmap strings.

Local Open Scope Z_scope.
Set Warnings "-register-all".

(** ** The metrics simulator (src/App.tsx) *)

Module Simulator.

(** [TrainingMetric] of the type declarations. *)
Record TrainingMetric : Type := mkMetric {
  epoch : Z;
  loss : Q;
  accuracy : Q;
  val_loss : Q;
  val_accuracy : Q
}.

(** The results of the three [Math.random()] calls of one tick, in the order
    of the calls. *)
Record Draws : Type := mkDraws {
  rnd_acc : Q;
  rnd_val_acc : Q;
  rnd_loss : Q
}.

(** The closure of one [setInterval] callback: the captured [currentEpoch]
    (a [let], incremented by each tick), the captured [totalEpochs] (a
    [const]) and whether [clearInterval] was called on the interval. *)
Record Interval : Type := mkInterval {
  currentEpoch : Z;
  totalEpochs : Z;
  cleared : bool
}.

(** The state of the component and of the timer table of the runtime.
    [nextTimer] is the identifier the next [setInterval] returns. *)
Record App : Type := mkApp {
  isTraining : bool;
  trainingData : list TrainingMetric;
  timers : gmap nat Interval;
  nextTimer : nat
}.

(** [useState(false)], [useState([])], no interval. *)
Definition initialApp : App :=
  {| isTraining := false; trainingData := []; timers := ∅; nextTimer := 0%nat |}.

(** [prev.length > 0 ? prev[prev.length - 1].accuracy : 0.45] and its two
    siblings. *)
Definition lastAcc (prev : list TrainingMetric) : Q :=
  match last prev with Some m => accuracy m | None => 0.45%Q end.

Definition lastValAcc (prev : list TrainingMetric) : Q :=
  match last prev with Some m => val_accuracy m | None => 0.42%Q end.

Definition lastLoss (prev : list TrainingMetric) : Q :=
  match last prev with Some m => loss m | None => 1.2%Q end.

(** [Math.min(0.98, lastAcc + Math.random() * 0.08)] and its siblings. *)
Definition newAcc (prev : list TrainingMetric) (d : Draws) : Q :=
  Qmin 0.98 (lastAcc prev + rnd_acc d * 0.08).

Definition newValAcc (prev : list TrainingMetric) (d : Draws) : Q :=
  Qmin 0.95 (lastValAcc prev + rnd_val_acc d * 0.06).

Definition newLoss (prev : list TrainingMetric) (d : Draws) : Q :=
  Qmax 0.1 (lastLoss prev - rnd_loss d * 0.15).

(** The point a tick appends. *)
Definition newPoint (e : Z) (d : Draws) (prev : list TrainingMetric)
  : TrainingMetric :=
  {| epoch := e;
     accuracy := newAcc prev d;
     val_accuracy := newValAcc prev d;
     loss := newLoss prev d;
     val_loss := (newLoss prev d * 1.1)%Q |}.

(** The updater passed to [setTrainingData]: [prev => [...prev, {..}]]. *)
Definition updater (e : Z) (d : Draws) (prev : list TrainingMetric)
  : list TrainingMetric :=
  prev ++ [newPoint e d prev].

(** The body of [simulateTraining] with the constant [totalEpochs] as an
    argument: [setIsTraining(true)], [setTrainingData([])], and a new
    interval whose closure starts at [currentEpoch = 1]. *)
Definition startRun (total : Z) (w : App) : App :=
  {| isTraining := true;
     trainingData := [];
     timers := <[nextTimer w := mkInterval 1 total false]> (timers w);
     nextTimer := S (nextTimer w) |}.

(** [simulateTraining]: [const totalEpochs = 15]. *)
Definition simulateTraining (w : App) : App := startRun 15 w.

(** One tick of interval [id], whose closure is [c]: the callback queues
    the functional update of the series, runs
    [if (currentEpoch >= totalEpochs)] with [clearInterval(interval)] and
    [setIsTraining(false)], then [currentEpoch++]; at the render that
    follows, the queued updater runs and reads the incremented
    [currentEpoch]. *)
Definition callback (id : nat) (c : Interval) (d : Draws) (w : App) : App :=
  let atEnd := totalEpochs c <=? currentEpoch c in
  {| isTraining := if atEnd then false else isTraining w;
     trainingData := updater (currentEpoch c + 1) d (trainingData w);
     timers :=
       <[id := mkInterval (currentEpoch c + 1) (totalEpochs c)
                 (if atEnd then true else cleared c)]> (timers w);
     nextTimer := nextTimer w |}.

(** The runtime fires interval [id]: its callback runs when the interval
    exists and was not cleared, and nothing happens otherwise. *)
Definition fire (id : nat) (d : Draws) (w : App) : App :=
  match timers w !! id with
  | Some c => if cleared c then w else callback id c d w
  | None => w
  end.

(** Interval [id] is still scheduled. *)
Definition active (id : nat) (w : App) : bool :=
  match timers w !! id with
  | Some c => negb (cleared c)
  | None => false
  end.

(** The condition under which [renderTraining] renders the button whose
    [onClick] is [simulateTraining]:
    [!isTraining && trainingData.length === 0]. *)
Definition startButtonRendered (w : App) : bool :=
  negb (isTraining w) && (length (trainingData w) =? 0)%nat.

(** What can happen to the component: the user clicks where the start
    button is, or the runtime fires an interval. *)
Inductive Event : Type :=
  | Click
  | Fire (id : nat) (d : Draws).

(** A click reaches [simulateTraining] only when the button is rendered. *)
Definition click (w : App) : App :=
  if startButtonRendered w then simulateTraining w else w.

Definition step (w : App) (ev : Event) : App :=
  match ev with
  | Click => click w
  | Fire id d => fire id d w
  end.

Definition exec (evs : list Event) (w : App) : App := foldl step w evs.

(** The direct calls a caller of the component's handlers can make: the
    only handler of the simulator is [simulateTraining]. *)
Inductive Call : Type :=
  | CallSimulateTraining.

Definition call (w : App) (c : Call) : App :=
  match c with
  | CallSimulateTraining => simulateTraining w
  end.

Definition calls (cs : list Call) (w : App) : App := foldl call w cs.

(** The runtime fires interval [id] with the draws [ds], one tick each. *)
Definition fires (id : nat) (ds : list Draws) (w : App) : App :=
  foldl (λ w d, fire id d w) w ds.

(** Letting interval [id] run: it is fired, with the draws [rng k] at its
    [k]-th tick, for as long as it is scheduled; [fuel] bounds the number
    of ticks looked at. The result says whether the interval came to its
    end within them. *)
Fixpoint runFrom (fuel : nat) (id : nat) (rng : nat → Draws) (k : nat) (w : App)
  : bool * App :=
  if active id w then
    match fuel with
    | O => (false, w)
    | S fuel' => runFrom fuel' id rng (S k) (fire id (rng k) w)
    end
  else (true, w).

Definition run (fuel : nat) (id : nat) (rng : nat → Draws) (w : App)
  : bool * App :=
  runFrom fuel id rng 0%nat w.

(** [Math.random()] returns a number in [0, 1). *)
Definition unit_draw (r : Q) : Prop := (0 <= r)%Q ∧ (r < 1)%Q.

Definition unit_draws (d : Draws) : Prop :=
  unit_draw (rnd_acc d) ∧ unit_draw (rnd_val_acc d) ∧ unit_draw (rnd_loss d).

(** The events whose ticks draw in [0, 1). *)
Definition unit_event (ev : Event) : Prop :=
  match ev with
  | Click => True
  | Fire _ d => unit_draws d
  end.

(** The epochs [e, e+1, .., e+n-1]. *)
Fixpoint epochsFrom (e : Z) (n : nat) : list Z :=
  match n with
  | O => []
  | S n' => e :: epochsFrom (e + 1) n'
  end.

(** *** The emission rule, in the words of the specification

    Given the previous point (or the seed values accuracy = 0.45,
    val_accuracy = 0.42, loss = 1.2 if none exists) and the three uniform
    draws [u_acc] from [0, 0.08), [u_val] from [0, 0.06) and [u_loss] from
    [0, 0.15):
    accuracy' = min(0.98, accuracy + u_acc),
    val_accuracy' = min(0.95, val_accuracy + u_val),
    loss' = max(0.10, loss - u_loss), val_loss' = loss' * 1.1. *)
Definition drawn_from (a b u : Q) : Prop := (a <= u)%Q ∧ (u < b)%Q.

Definition seedPoint : TrainingMetric :=
  {| epoch := 0; accuracy := 0.45; val_accuracy := 0.42; loss := 1.2;
     val_loss := 0 |}.

Definition spec_emission (previous : option TrainingMetric) (e : Z)
    (u_acc u_val u_loss : Q) : TrainingMetric :=
  let p := default seedPoint previous in
  let loss' := Qmax 0.1 (loss p - u_loss) in
  {| epoch := e;
     accuracy := Qmin 0.98 (accuracy p + u_acc);
     val_accuracy := Qmin 0.95 (val_accuracy p + u_val);
     loss := loss';
     val_loss := (loss' * 1.1)%Q |}.

(** *** The properties of a series *)

(** The bounds of one point. *)
Definition in_bounds (p : TrainingMetric) : Prop :=
  (0.45 <= accuracy p)%Q ∧ (accuracy p <= 0.98)%Q ∧
  (0.42 <= val_accuracy p)%Q ∧ (val_accuracy p <= 0.95)%Q ∧
  (0.1 <= loss p)%Q ∧
  val_loss p = (loss p * 1.1)%Q.

(** [q] is no worse than [p]: accuracies no lower, loss no higher. *)
Definition no_worse (p q : TrainingMetric) : Prop :=
  (accuracy p <= accuracy q)%Q ∧
  (val_accuracy p <= val_accuracy q)%Q ∧
  (loss q <= loss p)%Q.

(** Every point of the series is no worse than the point before it. *)
Definition weakly_improving (l : list TrainingMetric) : Prop :=
  ∀ (i : nat) (p q : TrainingMetric),
    l !! i = Some p → l !! S i = Some q → no_worse p q.

(** The two invariants of the series, kept by every tick. *)
Definition sound_series (l : list TrainingMetric) : Prop :=
  Forall in_bounds l ∧ weakly_improving l.


(** A run halted after [k] points: [k] points recorded, marked not running,
    and no interval emits any more. *)
Definition halted (k : nat) (w : App) : Prop :=
  length (trainingData w) = k ∧ isTraining w = false ∧
  ∀ (id : nat) (d : Draws), trainingData (fire id d w) = trainingData w.

(** The draws used in the examples. *)
Definition halfDraws : Draws := mkDraws 0.5 0.5 0.5.

(** Draws near the top of the interval. *)
Definition highDraws : Draws := mkDraws 0.99 0.99 0.99.

(** *** What [renderTraining] shows of the run *)

(** The button [Evaluate Model] is enabled: its [disabled] is
    [isTraining || trainingData.length === 0]. *)
Definition evaluateEnabled (w : App) : bool :=
  negb (isTraining w || (length (trainingData w) =? 0)%nat).


(** The three kinds of state the component goes through: nothing started,
    [k] points of the run recorded, the run over. *)
Inductive Phase : Type :=
  | Idle
  | Running (k : nat)
  | Finished.

Definition inPhase (ph : Phase) (w : App) : Prop :=
  match ph with
  | Idle => w = initialApp
  | Running k =>
      (k < 15)%nat ∧ isTraining w = true ∧
      epoch <$> trainingData w = epochsFrom 2 k ∧
      timers w = {[ 0%nat := mkInterval (1 + Z.of_nat k) 15 false ]} ∧
      nextTimer w = 1%nat
  | Finished =>
      isTraining w = false ∧
      epoch <$> trainingData w = epochsFrom 2 15 ∧
      timers w = {[ 0%nat := mkInterval 16 15 true ]} ∧
      nextTimer w = 1%nat
  end.

(** *** Further properties of a series *)

(** The bounds of the losses of one point. *)
Definition in_loss_bounds (p : TrainingMetric) : Prop :=
  (loss p <= 1.2)%Q ∧ (0.11 <= val_loss p)%Q ∧ (val_loss p <= 1.32)%Q ∧
  (loss p < val_loss p)%Q.

(** How far the point of index [i] (the point number [i + 1]) can have
    moved from the seed values. *)
Definition within_reach (i : nat) (p : TrainingMetric) : Prop :=
  (accuracy p < 0.45 + 0.08 * inject_Z (Z.of_nat (S i)))%Q ∧
  (val_accuracy p < 0.42 + 0.06 * inject_Z (Z.of_nat (S i)))%Q ∧
  (1.2 - 0.15 * inject_Z (Z.of_nat (S i)) < loss p)%Q.

Definition all_within_reach (l : list TrainingMetric) : Prop :=
  ∀ (i : nat) (p : TrainingMetric), l !! i = Some p → within_reach i p.

(** The points are within their bounds and no loss exceeds the seed. *)
Definition loss_capped (l : list TrainingMetric) : Prop :=
  Forall in_bounds l ∧ Forall (λ p, (loss p <= 1.2)%Q) l.

(** Every point is no worse than every point before it. *)
Definition improving_throughout (l : list TrainingMetric) : Prop :=
  ∀ (i j : nat) (p q : TrainingMetric),
    (i ≤ j)%nat → l !! i = Some p → l !! j = Some q → no_worse p q.

(** A point at a ceiling or at the floor. *)
Definition at_accuracy_ceiling (p : TrainingMetric) : Prop :=
  (accuracy p == 0.98)%Q.

Definition at_val_accuracy_ceiling (p : TrainingMetric) : Prop :=
  (val_accuracy p == 0.95)%Q.

Definition at_loss_floor (p : TrainingMetric) : Prop :=
  (loss p == 0.1)%Q.

End Simulator.

(** ** The analysis gateway (src/geminiService.ts) *)

Module Gateway.

(** *** JSON values and the declared response shape *)

(** The values [JSON.parse] returns. An object keeps its members in the
    order of the text; a member read by name is the last one of that name. *)
Inductive json : Type :=
  | JNull
  | JBool (b : bool)
  | JNumber (q : Q)
  | JString (s : string)
  | JArray (items : list json)
  | JObject (fields : list (string * json)).

(** The fragment of the SDK's schema language ([Type.OBJECT], [Type.STRING],
    [Type.NUMBER], [Type.ARRAY]) that [responseSchema] uses. *)
Inductive Schema : Type :=
  | TypeString
  | TypeNumber
  | TypeArray (items : Schema)
  | TypeObject (properties : list (string * Schema)) (required : list string).

Definition getField (k : string) (fields : list (string * json)) : option json :=
  snd <$> last (filter (λ kv, kv.1 = k) fields).

Definition hasField (k : string) (fields : list (string * json)) : bool :=
  bool_decide (is_Some (getField k fields)).

(** A value conforms to a shape: it has the declared type, an object has
    every required member, and every declared member that is present
    conforms to its own shape. *)
Fixpoint conforms (s : Schema) (v : json) {struct s} : bool :=
  match s, v with
  | TypeString, JString _ => true
  | TypeNumber, JNumber _ => true
  | TypeArray it, JArray vs => forallb (conforms it) vs
  | TypeObject props req, JObject fields =>
      forallb (λ k, hasField k fields) req &&
      forallb (λ ks, match getField ks.1 fields with
                     | Some v => conforms ks.2 v
                     | None => true
                     end) props
  | _, _ => false
  end.

(** *** The request *)

Inductive Part : Type :=
  | TextPart (text : string)
  | InlineDataPart (mimeType : string) (data : option string).

Inductive Contents : Type :=
  | PartsContents (parts : list Part)
  | TextContents (text : string).

Record Config : Type := mkConfig {
  responseMimeType : string;
  responseSchema : Schema
}.

Record Request : Type := mkRequest {
  model : string;
  contents : Contents;
  config : option Config
}.

(** The response of [generateContent], of which the code reads [text]. *)
Record Response : Type := mkResponse {
  text : string
}.

(** *** Strings *)

Definition dquote : string := String "034"%char EmptyString.
Definition newline : string := String "010"%char EmptyString.

(** [s.split(c)] for a one-character separator. *)
Fixpoint split (c : ascii) (s : string) : list string :=
  match s with
  | EmptyString => [EmptyString]
  | String a s' =>
      if Ascii.eqb a c then EmptyString :: split c s'
      else match split c s' with
           | h :: t => String a h :: t
           | [] => [String a EmptyString]
           end
  end.

(** *** A reference [JSON.parse]

    [JSON.parse] belongs to the runtime and is a parameter of the gateway
    ([JSON_parse] below). The examples need one at hand: [parseText] reads
    the JSON grammar of ECMA-404 (objects, arrays, strings with the
    two-character escapes, numbers, [true], [false], [null], white space);
    the [\u] escapes are left out, and a text that uses one is rejected. *)

Definition isWhitespace (c : ascii) : bool :=
  Ascii.eqb c " " || Ascii.eqb c "009" || Ascii.eqb c "010" || Ascii.eqb c "013".

Definition isDigit (c : ascii) : bool :=
  (48 <=? nat_of_ascii c)%nat && (nat_of_ascii c <=? 57)%nat.

Definition digitValue (c : ascii) : Z := Z.of_nat (nat_of_ascii c) - 48.

Fixpoint skipWhitespace (s : string) : string :=
  match s with
  | String c s' => if isWhitespace c then skipWhitespace s' else s
  | EmptyString => s
  end.

(** [s] without the prefix [p], when it starts with it. *)
Fixpoint stripPrefix (p s : string) : option string :=
  match p, s with
  | EmptyString, _ => Some s
  | String a p', String b s' =>
      if Ascii.eqb a b then stripPrefix p' s' else None
  | String _ _, EmptyString => None
  end.

(** The character an escape [\c] stands for. *)
Definition unescape (c : ascii) : option ascii :=
  if Ascii.eqb c "034" then Some "034"%char
  else if Ascii.eqb c "\" then Some "\"%char
  else if Ascii.eqb c "/" then Some "/"%char
  else if Ascii.eqb c "b" then Some "008"%char
  else if Ascii.eqb c "f" then Some "012"%char
  else if Ascii.eqb c "n" then Some "010"%char
  else if Ascii.eqb c "r" then Some "013"%char
  else if Ascii.eqb c "t" then Some "009"%char
  else None.

(** The characters of a string literal after its opening quote, up to the
    closing quote, and the text after it. *)
Fixpoint parseStringBody (s : string) : option (string * string) :=
  match s with
  | EmptyString => None
  | String c s' =>
      if Ascii.eqb c "034" then Some (EmptyString, s')
      else if Ascii.eqb c "\" then
        match s' with
        | String e s'' =>
            match unescape e, parseStringBody s'' with
            | Some c', Some (body, rest) => Some (String c' body, rest)
            | _, _ => None
            end
        | EmptyString => None
        end
      else if (nat_of_ascii c <? 32)%nat then None
      else match parseStringBody s' with
           | Some (body, rest) => Some (String c body, rest)
           | None => None
           end
  end.

(** The digits at the head of [s]: their value after [acc], their number,
    and the text after them. *)
Fixpoint parseDigits (s : string) (acc : Z) (n : nat) : Z * nat * string :=
  match s with
  | String c s' =>
      if isDigit c then parseDigits s' (10 * acc + digitValue c) (S n)
      else (acc, n, s)
  | EmptyString => (acc, n, s)
  end.

Definition startsWithZero (s : string) : bool :=
  match s with
  | String c _ => Ascii.eqb c "0"
  | EmptyString => false
  end.

(** The fraction of a number: the integer part becomes the numerator over
    a power of ten. *)
Definition parseFraction (int : Z) (s : string) : option (Z * nat * string) :=
  match s with
  | String c s' =>
      if Ascii.eqb c "." then
        match parseDigits s' int 0 with
        | (_, O, _) => None
        | (num, k, rest) => Some (num, k, rest)
        end
      else Some (int, O, s)
  | EmptyString => Some (int, O, s)
  end.

(** The exponent of a number. *)
Definition parseExponent (s : string) : option (Z * string) :=
  match s with
  | String c s' =>
      if Ascii.eqb c "e" || Ascii.eqb c "E" then
        let '(sign, s'') :=
          match s' with
          | String d t =>
              if Ascii.eqb d "-" then (-1, t)
              else if Ascii.eqb d "+" then (1, t)
              else (1, s')
          | EmptyString => (1, s')
          end in
        match parseDigits s'' 0 0 with
        | (_, O, _) => None
        | (e, _, rest) => Some (sign * e, rest)
        end
      else Some (0, s)
  | EmptyString => Some (0, s)
  end.

Definition parseNumber (s : string) : option (Q * string) :=
  let '(sign, s1) :=
    match s with
    | String c s' => if Ascii.eqb c "-" then (-1, s') else (1, s)
    | EmptyString => (1, s)
    end in
  match parseDigits s1 0 0 with
  | (_, O, _) => None
  | (int, n, s2) =>
      if startsWithZero s1 && (1 <? n)%nat then None
      else
        match parseFraction int s2 with
        | None => None
        | Some (num, k, s3) =>
            match parseExponent s3 with
            | None => None
            | Some (e, s4) =>
                Some ((sign * num # Z.to_pos (10 ^ Z.of_nat k)) *
                        Qpower 10 e, s4)%Q
            end
        end
  end.

Fixpoint parseValue (fuel : nat) (s : string) : option (json * string) :=
  match fuel with
  | O => None
  | S fuel' =>
      match skipWhitespace s with
      | EmptyString => None
      | String c s1 as s0 =>
          if Ascii.eqb c "{" then
            match skipWhitespace s1 with
            | String c' s2 =>
                if Ascii.eqb c' "}" then Some (JObject [], s2)
                else parseMembers fuel' s1 []
            | EmptyString => None
            end
          else if Ascii.eqb c "[" then
            match skipWhitespace s1 with
            | String c' s2 =>
                if Ascii.eqb c' "]" then Some (JArray [], s2)
                else parseElements fuel' s1 []
            | EmptyString => None
            end
          else if Ascii.eqb c "034" then
            match parseStringBody s1 with
            | Some (body, rest) => Some (JString body, rest)
            | None => None
            end
          else if Ascii.eqb c "t" then
            (λ rest, (JBool true, rest)) <$> stripPrefix "true" s0
          else if Ascii.eqb c "f" then
            (λ rest, (JBool false, rest)) <$> stripPrefix "false" s0
          else if Ascii.eqb c "n" then
            (λ rest, (JNull, rest)) <$> stripPrefix "null" s0
          else
            match parseNumber s0 with
            | Some (q, rest) => Some (JNumber q, rest)
            | None => None
            end
      end
  end
with parseElements (fuel : nat) (s : string) (acc : list json)
  : option (json * string) :=
  match fuel with
  | O => None
  | S fuel' =>
      match parseValue fuel' s with
      | Some (v, s1) =>
          match skipWhitespace s1 with
          | String c s2 =>
              if Ascii.eqb c "," then parseElements fuel' s2 (v :: acc)
              else if Ascii.eqb c "]" then Some (JArray (rev (v :: acc)), s2)
              else None
          | EmptyString => None
          end
      | None => None
      end
  end
with parseMembers (fuel : nat) (s : string) (acc : list (string * json))
  : option (json * string) :=
  match fuel with
  | O => None
  | S fuel' =>
      match skipWhitespace s with
      | String q s1 =>
          if Ascii.eqb q "034" then
            match parseStringBody s1 with
            | Some (key, s2) =>
                match skipWhitespace s2 with
                | String c s3 =>
                    if Ascii.eqb c ":" then
                      match parseValue fuel' s3 with
                      | Some (v, s4) =>
                          match skipWhitespace s4 with
                          | String c' s5 =>
                              if Ascii.eqb c' "," then
                                parseMembers fuel' s5 ((key, v) :: acc)
                              else if Ascii.eqb c' "}" then
                                Some (JObject (rev ((key, v) :: acc)), s5)
                              else None
                          | EmptyString => None
                          end
                      | None => None
                      end
                    else None
                | EmptyString => None
                end
            | None => None
            end
          else None
      | EmptyString => None
      end
  end.

(** The whole text is one value, white space around it allowed. *)
Definition parseText (s : string) : option json :=
  match parseValue (2 * String.length s + 2) s with
  | Some (v, rest) =>
      match skipWhitespace rest with
      | EmptyString => Some v
      | String _ _ => None
      end
  | None => None
  end.

(** A string literal and a member of an object, as JSON text. *)
Definition quoted (s : string) : string := dquote +:+ s +:+ dquote.

Definition member (k v : string) : string := quoted k +:+ ":" +:+ v.

(** The template literal [prompt] of [analyzeClassification]. *)
Definition classificationPrompt (dataset architecture : string) : string :=
  newline +:+
  "    You are acting as a Convolutional Neural Network (CNN) model that has just been trained on the "
    +:+ dquote +:+ dataset +:+ dquote +:+ " dataset." +:+ newline +:+
  "    The architecture used was: " +:+ architecture +:+ "." +:+ newline +:+
  "    " +:+ newline +:+
  "    Analyze the provided image and return a JSON object describing:" +:+ newline +:+
  "    1. The predicted label (be specific to the dataset)." +:+ newline +:+
  "    2. Confidence level (0 to 1)." +:+ newline +:+
  "    3. An explanation of what " +:+ dquote +:+ "features" +:+ dquote +:+
    " the CNN layers likely detected (e.g., specific textures, shapes, or patterns characteristic of that class)."
    +:+ newline +:+
  "    4. 3-4 key visual features detected by the hypothetical feature maps." +:+ newline +:+
  newline +:+
  "    Provide the output strictly in JSON format." +:+ newline +:+
  "  ".

(** The template literal of [generateFinalReport]. *)
Definition reportPrompt (summary : string) : string :=
  "Write a professional 5-7 line summary report on learning outcomes for a student who completed a CNN Image Classification project with these reflections: "
    +:+ summary +:+
  ". Focus on concepts like feature extraction, model optimization, and data augmentation.".

(** The [responseSchema] of [analyzeClassification]. *)
Definition classificationSchema : Schema :=
  TypeObject
    [("label", TypeString); ("confidence", TypeNumber);
     ("explanation", TypeString); ("features", TypeArray TypeString)]
    ["label"; "confidence"; "explanation"; "features"].

Definition classificationRequest (imageData dataset architecture : string)
  : Request :=
  {| model := "gemini-3-flash-preview";
     contents :=
       PartsContents
         [TextPart (classificationPrompt dataset architecture);
          InlineDataPart "image/jpeg" (split "," imageData !! 1%nat)];
     config := Some (mkConfig "application/json" classificationSchema) |}.

Definition reportRequest (summary : string) : Request :=
  {| model := "gemini-3-flash-preview";
     contents := TextContents (reportPrompt summary);
     config := None |}.

(** *** The runtime and the effects of the two operations *)

Section WithRuntime.

(** What the SDK's call rejects with; the code never looks into it. *)
Context {Cause : Type}.

(** How one call of [ai.models.generateContent] settles. *)
Inductive ServiceResult : Type :=
  | Resolves (response : Response)
  | Rejects (cause : Cause).

(** The values the two operations can throw: the rejection of the service
    call, passed on as it is, or the [SyntaxError] of [JSON.parse]. *)
Inductive Thrown : Type :=
  | ServiceFailure (cause : Cause)
  | JsonSyntaxError.

(** The environment the operations run in: [process.env.API_KEY], the remote
    service behind [generateContent] (its answer may depend on the key, on
    the number of calls made before, and on the request), and [JSON.parse]
    ([None] when it throws its [SyntaxError]). *)
Record Runtime : Type := mkRuntime {
  API_KEY : option string;
  generateContent : string → nat → Request → ServiceResult;
  JSON_parse : string → option json
}.

(** What an operation leaves behind: the requests sent to the service, in
    order, and the lines written with [console.error]. *)
Record Trace : Type := mkTrace {
  requests : list Request;
  console : list (string * Thrown)
}.

Definition emptyTrace : Trace := {| requests := []; console := [] |}.

(** How a promise settles. *)
Inductive Settled (A : Type) : Type :=
  | Fulfilled (value : A)
  | Rejected (error : Thrown).
Global Arguments Fulfilled {A} value.
Global Arguments Rejected {A} error.

(** An asynchronous computation: from the trace so far to the way it
    settles and the trace after it. *)
Definition Async (A : Type) : Type := Trace → Settled A * Trace.

Definition resolve {A} (a : A) : Async A := λ tr, (Fulfilled a, tr).

Definition throw {A} (e : Thrown) : Async A := λ tr, (Rejected e, tr).

(** [await m], then [k]. *)
Definition await {A B} (m : Async A) (k : A → Async B) : Async B :=
  λ tr, match m tr with
        | (Fulfilled a, tr') => k a tr'
        | (Rejected e, tr') => (Rejected e, tr')
        end.

(** [try { m } catch (error) { h error }]. *)
Definition tryCatch {A} (m : Async A) (h : Thrown → Async A) : Async A :=
  λ tr, match m tr with
        | (Fulfilled a, tr') => (Fulfilled a, tr')
        | (Rejected e, tr') => h e tr'
        end.

Variable rt : Runtime.

(** [getAI()]: [new GoogleGenAI({ apiKey: process.env.API_KEY || '' })];
    the client is its key. *)
Definition getAI : string := default EmptyString (API_KEY rt).

(** [ai.models.generateContent(req)]: the request is sent, once. *)
Definition models_generateContent (ai : string) (req : Request) : Async Response :=
  λ tr,
    let tr' := {| requests := requests tr ++ [req]; console := console tr |} in
    match generateContent rt ai (length (requests tr)) req with
    | Resolves r => (Fulfilled r, tr')
    | Rejects c => (Rejected (ServiceFailure c), tr')
    end.

(** [JSON.parse(s)]. *)
Definition parseJSON (s : string) : Async json :=
  match JSON_parse rt s with
  | Some v => resolve v
  | None => throw JsonSyntaxError
  end.

(** [console.error(label, error)]. *)
Definition console_error (label : string) (e : Thrown) : Async () :=
  λ tr, (Fulfilled (),
         {| requests := requests tr; console := console tr ++ [(label, e)] |}).

Definition analyzeClassification (imageData dataset architecture : string)
  : Async json :=
  let ai := getAI in
  tryCatch
    (await (models_generateContent ai
              (classificationRequest imageData dataset architecture))
       (λ response, parseJSON (text response)))
    (λ error,
       await (console_error "Gemini Classification Error:" error)
         (λ _, throw error)).

Definition generateFinalReport (summary : string) : Async string :=
  let ai := getAI in
  await (models_generateContent ai (reportRequest summary))
    (λ response, resolve (text response)).

End WithRuntime.

Global Arguments ServiceResult : clear implicits.
Global Arguments Thrown : clear implicits.
Global Arguments Runtime : clear implicits.
Global Arguments Trace : clear implicits.
Global Arguments Settled : clear implicits.

(** *** The mocked services of the examples *)

(** A runtime whose service gives the same answer to every call, with the
    reference parser for [JSON.parse]. A cause is a line of text here. *)
Definition mockRuntime (answer : ServiceResult string) : Runtime string :=
  {| API_KEY := Some "test-key";
     generateContent := λ _ _ _, answer;
     JSON_parse := parseText |}.

(** A runtime whose service rejects the first call made to it and resolves
    every later one with [response]. *)
Definition flakyRuntime (cause : string) (response : Response)
  : Runtime string :=
  {| API_KEY := Some "test-key";
     generateContent :=
       λ _ n _, if (n =? 0)%nat then Rejects cause else Resolves response;
     JSON_parse := parseText |}.

(** A response with every member of the declared shape. *)
Definition catText : string :=
  "{" +:+ member "label" (quoted "cat") +:+ "," +:+
  member "confidence" "0.87" +:+ "," +:+
  member "explanation" (quoted "...") +:+ "," +:+
  member "features"
    ("[" +:+ quoted "fur texture" +:+ "," +:+ quoted "pointed ears" +:+ ","
         +:+ quoted "whiskers" +:+ "]") +:+
  "}".

Definition catValue : json :=
  JObject
    [("label", JString "cat"); ("confidence", JNumber 0.87);
     ("explanation", JString "...");
     ("features",
      JArray [JString "fur texture"; JString "pointed ears";
              JString "whiskers"])].

(** The same response without its member [features]. *)
Definition noFeaturesText : string :=
  "{" +:+ member "label" (quoted "cat") +:+ "," +:+
  member "confidence" "0.87" +:+ "," +:+
  member "explanation" (quoted "...") +:+ "}".

Definition noFeaturesValue : json :=
  JObject
    [("label", JString "cat"); ("confidence", JNumber 0.87);
     ("explanation", JString "...")].

(** A response whose [confidence] is a string. *)
Definition wrongTypeText : string :=
  "{" +:+ member "label" (quoted "cat") +:+ "," +:+
  member "confidence" (quoted "high") +:+ "," +:+
  member "explanation" (quoted "...") +:+ "," +:+
  member "features" "[]" +:+ "}".

Definition wrongTypeValue : json :=
  JObject
    [("label", JString "cat"); ("confidence", JString "high");
     ("explanation", JString "..."); ("features", JArray [])].

Definition sampleImage : string := "data:image/jpeg;base64,AAAA".

Definition sampleReflection : string :=
  "I learned about dropout and augmentation".

End Gateway.

(** ** The wizard (src/App.tsx): steps, handlers and what is rendered *)

Module Wizard.
Import Gateway.

(** *** The steps *)

(** [ProjectStep] of the type declarations. *)
Inductive ProjectStep : Type :=
  | INTRO
  | DATASET
  | PREPROCESSING
  | ARCHITECTURE
  | TRAINING
  | EVALUATION
  | SUMMARY.

Global Instance ProjectStep_eq_dec : EqDecision ProjectStep.
Proof. solve_decision. Defined.

(** [Object.values(ProjectStep)]. *)
Definition steps : list ProjectStep :=
  [INTRO; DATASET; PREPROCESSING; ARCHITECTURE; TRAINING; EVALUATION; SUMMARY].

(** [l.indexOf(x)]: the first index of [x], or -1. *)
Fixpoint indexOf {A : Type} `{EqDecision A} (x : A) (l : list A) : Z :=
  match l with
  | [] => -1
  | y :: l' =>
      if decide (x = y) then 0
      else let i := indexOf x l' in if i <? 0 then -1 else i + 1
  end.

(** [l[i]]: [undefined] out of range. *)
Definition at_index {A : Type} (l : list A) (i : Z) : option A :=
  if i <? 0 then None else l !! Z.to_nat i.

(** The step [nextStep] passes to [setStep], when it calls it: under
    [currentIndex < steps.length - 1], [steps[currentIndex + 1]]. *)
Definition nextStepTarget (current : ProjectStep) : option (option ProjectStep) :=
  let currentIndex := indexOf current steps in
  if currentIndex <? Z.of_nat (length steps) - 1
  then Some (at_index steps (currentIndex + 1))
  else None.

(** The same for [prevStep]: under [currentIndex > 0],
    [steps[currentIndex - 1]]. *)
Definition prevStepTarget (current : ProjectStep) : option (option ProjectStep) :=
  let currentIndex := indexOf current steps in
  if 0 <? currentIndex
  then Some (at_index steps (currentIndex - 1))
  else None.

(** The step after [nextStep] run in a closure that holds [current], the
    component being at [now]: [setStep] is not called at the last step.
    (An [undefined] target, which never occurs, would leave the step.) *)
Definition stepAfterNext (current now : ProjectStep) : ProjectStep :=
  match nextStepTarget current with
  | Some target => default now target
  | None => now
  end.

Definition stepAfterPrev (current now : ProjectStep) : ProjectStep :=
  match prevStepTarget current with
  | Some target => default now target
  | None => now
  end.

(** *** [StepIndicator] *)

(** How the circle of a step is drawn: the class names of the ternary
    [isActive ? .. : isCompleted ? .. : ..]. *)
Inductive Look : Type :=
  | Active
  | Completed
  | Upcoming.

Global Instance Look_eq_dec : EqDecision Look.
Proof. solve_decision. Defined.

(** [step === current]. *)
Definition isActive (current step : ProjectStep) : bool :=
  bool_decide (step = current).

(** [steps.indexOf(current) > idx]. *)
Definition isCompleted (current : ProjectStep) (idx : nat) : bool :=
  Z.of_nat idx <? indexOf current steps.

Definition look (current step : ProjectStep) (idx : nat) : Look :=
  if isActive current step then Active
  else if isCompleted current idx then Completed
  else Upcoming.

(** What the circle holds: the check mark, or [idx + 1]. *)
Definition circleContent (current : ProjectStep) (idx : nat) : option Z :=
  if isCompleted current idx then None else Some (Z.of_nat idx + 1).

(** The line after a step: [idx < steps.length - 1]. *)
Definition hasConnector (idx : nat) : bool :=
  Z.of_nat idx <? Z.of_nat (length steps) - 1.

(** The looks of the seven circles, as [steps.map] draws them. *)
Definition indicator (current : ProjectStep) : list Look :=
  imap (λ idx step, look current step idx) steps.

(** *** Datasets and layers *)

(** [DatasetType] of the type declarations. *)
Inductive DatasetType : Type :=
  | CatsVsDogs
  | Fruits
  | Flowers
  | FashionMnist.

(** The string a [DatasetType] is. *)
Definition datasetId (d : DatasetType) : string :=
  match d with
  | CatsVsDogs => "cats-vs-dogs"
  | Fruits => "fruits"
  | Flowers => "flowers"
  | FashionMnist => "fashion-mnist"
  end.

Inductive LayerType : Type :=
  | Conv2D
  | MaxPooling2D
  | Flatten
  | Dense
  | Dropout.

Definition layerTypeName (t : LayerType) : string :=
  match t with
  | Conv2D => "Conv2D"
  | MaxPooling2D => "MaxPooling2D"
  | Flatten => "Flatten"
  | Dense => "Dense"
  | Dropout => "Dropout"
  end.

(** The values the [params] of a layer hold. *)
Inductive Param : Type :=
  | PNumber (q : Q)
  | PString (s : string).

(** [CNNLayer] of the type declarations. *)
Record CNNLayer : Type := mkLayer {
  layerId : string;
  layerType : LayerType;
  params : list (string * Param)
}.

Definition INITIAL_LAYERS : list CNNLayer :=
  [mkLayer "1" Conv2D
     [("filters", PNumber 32); ("kernel", PString "3x3");
      ("activation", PString "relu")];
   mkLayer "2" MaxPooling2D [("size", PString "2x2")];
   mkLayer "3" Conv2D
     [("filters", PNumber 64); ("kernel", PString "3x3");
      ("activation", PString "relu")];
   mkLayer "4" MaxPooling2D [("size", PString "2x2")];
   mkLayer "5" Flatten [];
   mkLayer "6" Dense [("units", PNumber 64); ("activation", PString "relu")];
   mkLayer "7" Dropout [("rate", PNumber 0.5)];
   mkLayer "8" Dense [("units", PNumber 2); ("activation", PString "softmax")]].

(** [l.join(sep)]. *)
Fixpoint join (sep : string) (l : list string) : string :=
  match l with
  | [] => EmptyString
  | [x] => x
  | x :: l' => x +:+ sep +:+ join sep l'
  end.

(** [layers.map(l => l.type).join(' -> ')] of [handlePredict]. *)
Definition archSummary (layers : list CNNLayer) : string :=
  join " -> " (map (λ l, layerTypeName (layerType l)) layers).

(** The character [c] occurs in [s]. *)
Fixpoint occurs (c : ascii) (s : string) : bool :=
  match s with
  | EmptyString => false
  | String a s' => Ascii.eqb a c || occurs c s'
  end.

(** A string, or [null], that is not falsy. *)
Definition truthy (s : option string) : bool :=
  match s with
  | Some s => negb (String.eqb s EmptyString)
  | None => false
  end.

(** *** The panel of the prediction *)

(** A parsed value that is not falsy. *)
Definition jsTruthy (v : json) : bool :=
  match v with
  | JNull => false
  | JBool b => b
  | JNumber q => negb (Qeq_bool q 0)
  | JString s => negb (String.eqb s EmptyString)
  | JArray _ => true
  | JObject _ => true
  end.

(** [prediction.features.map(..)]: the items the spans are made of, or
    [None] for the [TypeError] thrown when [prediction.features] is not an
    array. *)
Definition featuresMap (v : json) : option (list json) :=
  match v with
  | JObject fields =>
      match getField "features" fields with
      | Some (JArray items) => Some items
      | _ => None
      end
  | _ => None
  end.

(** [prediction ? (.. prediction.features.map(..) ..) : (..)]: [None] when
    the placeholder is rendered, else what [featuresMap] gives. *)
Definition predictionPanel (p : option json) : option (option (list json)) :=
  match p with
  | Some v => if jsTruthy v then Some (featuresMap v) else None
  | None => None
  end.

(** *** The component and its handlers *)

Section WithRuntime.
Context {Cause : Type}.
Variable rt : Runtime Cause.

(** The two halves of [ai.models.generateContent]: the request leaves, and
    the promise settles with what the service answered. *)
Definition sendRequest (ai : string) (req : Request) (tr : Trace Cause)
  : ServiceResult Cause * Trace Cause :=
  (generateContent rt ai (length (requests tr)) req,
   {| requests := requests tr ++ [req]; console := console tr |}).

Definition settleRequest (res : ServiceResult Cause) : Async Response :=
  match res with
  | Resolves r => resolve r
  | Rejects c => throw (ServiceFailure c)
  end.

(** What is left of [analyzeClassification] and of [generateFinalReport]
    once the service has answered. *)
Definition classificationAfter (res : ServiceResult Cause) : Async json :=
  tryCatch
    (await (settleRequest res) (λ response, parseJSON rt (text response)))
    (λ error,
       await (console_error "Gemini Classification Error:" error)
         (λ _, throw error)).

Definition reportAfter (res : ServiceResult Cause) : Async string :=
  await (settleRequest res) (λ response, resolve (text response)).

(** A call of the gateway that has not settled yet, with what its handler
    holds in its closure: [handleGenerateReport] calls the [nextStep] of the
    render in which the button was clicked. *)
Inductive Pending : Type :=
  | PredictCall (result : ServiceResult Cause)
  | ReportCall (result : ServiceResult Cause) (closureStep : ProjectStep).

(** The [useState] cells of [App], the simulator's part among them (with
    the intervals of the runtime), and around them: the file reads and the
    gateway calls in flight, and the history of what the code sent, logged
    and alerted. *)
Record State : Type := mkState {
  step : ProjectStep;
  dataset : DatasetType;
  layers : list CNNLayer;
  training : Simulator.App;
  testImage : option string;
  prediction : option json;
  isAnalyzing : bool;
  summaryText : string;
  finalReport : string;
  reading : nat;
  inflight : list Pending;
  trace : Trace Cause;
  alerts : list string
}.

Definition initialState : State :=
  {| step := INTRO; dataset := CatsVsDogs; layers := INITIAL_LAYERS;
     training := Simulator.initialApp;
     testImage := None; prediction := None; isAnalyzing := false;
     summaryText := EmptyString; finalReport := EmptyString;
     reading := 0%nat; inflight := [];
     trace := emptyTrace; alerts := [] |}.

Definition setStep (v : ProjectStep) (w : State) : State :=
  mkState v (dataset w) (layers w) (training w) (testImage w) (prediction w)
    (isAnalyzing w) (summaryText w) (finalReport w) (reading w) (inflight w)
    (trace w) (alerts w).

Definition setDataset (v : DatasetType) (w : State) : State :=
  mkState (step w) v (layers w) (training w) (testImage w) (prediction w)
    (isAnalyzing w) (summaryText w) (finalReport w) (reading w) (inflight w)
    (trace w) (alerts w).

Definition setLayers (v : list CNNLayer) (w : State) : State :=
  mkState (step w) (dataset w) v (training w) (testImage w) (prediction w)
    (isAnalyzing w) (summaryText w) (finalReport w) (reading w) (inflight w)
    (trace w) (alerts w).

Definition setTraining (v : Simulator.App) (w : State) : State :=
  mkState (step w) (dataset w) (layers w) v (testImage w) (prediction w)
    (isAnalyzing w) (summaryText w) (finalReport w) (reading w) (inflight w)
    (trace w) (alerts w).

Definition setTestImage (v : option string) (w : State) : State :=
  mkState (step w) (dataset w) (layers w) (training w) v (prediction w)
    (isAnalyzing w) (summaryText w) (finalReport w) (reading w) (inflight w)
    (trace w) (alerts w).

Definition setPrediction (v : option json) (w : State) : State :=
  mkState (step w) (dataset w) (layers w) (training w) (testImage w) v
    (isAnalyzing w) (summaryText w) (finalReport w) (reading w) (inflight w)
    (trace w) (alerts w).

Definition setIsAnalyzing (v : bool) (w : State) : State :=
  mkState (step w) (dataset w) (layers w) (training w) (testImage w)
    (prediction w) v (summaryText w) (finalReport w) (reading w) (inflight w)
    (trace w) (alerts w).

Definition setSummaryText (v : string) (w : State) : State :=
  mkState (step w) (dataset w) (layers w) (training w) (testImage w)
    (prediction w) (isAnalyzing w) v (finalReport w) (reading w) (inflight w)
    (trace w) (alerts w).

Definition setFinalReport (v : string) (w : State) : State :=
  mkState (step w) (dataset w) (layers w) (training w) (testImage w)
    (prediction w) (isAnalyzing w) (summaryText w) v (reading w) (inflight w)
    (trace w) (alerts w).

Definition setReading (v : nat) (w : State) : State :=
  mkState (step w) (dataset w) (layers w) (training w) (testImage w)
    (prediction w) (isAnalyzing w) (summaryText w) (finalReport w) v
    (inflight w) (trace w) (alerts w).

Definition setInflight (v : list Pending) (w : State) : State :=
  mkState (step w) (dataset w) (layers w) (training w) (testImage w)
    (prediction w) (isAnalyzing w) (summaryText w) (finalReport w)
    (reading w) v (trace w) (alerts w).

Definition setTrace (v : Trace Cause) (w : State) : State :=
  mkState (step w) (dataset w) (layers w) (training w) (testImage w)
    (prediction w) (isAnalyzing w) (summaryText w) (finalReport w)
    (reading w) (inflight w) v (alerts w).

(** [alert(message)]. *)
Definition alert (message : string) (w : State) : State :=
  mkState (step w) (dataset w) (layers w) (training w) (testImage w)
    (prediction w) (isAnalyzing w) (summaryText w) (finalReport w)
    (reading w) (inflight w) (trace w) (alerts w ++ [message]).

(** [nextStep] and [prevStep] of a render at step [current]. *)
Definition nextStep (current : ProjectStep) (w : State) : State :=
  setStep (stepAfterNext current (step w)) w.

Definition prevStep (current : ProjectStep) (w : State) : State :=
  setStep (stepAfterPrev current (step w)) w.

(** [handlePredict], up to its [await]: nothing without a test image;
    otherwise [setIsAnalyzing(true)] and the call of
    [analyzeClassification], whose request leaves. *)
Definition handlePredict_call (w : State) : State :=
  match testImage w with
  | Some image =>
      if truthy (testImage w) then
        let '(res, tr) :=
          sendRequest (getAI rt)
            (classificationRequest image (datasetId (dataset w))
               (archSummary (layers w)))
            (trace w) in
        setInflight (inflight w ++ [PredictCall res])
          (setTrace tr (setIsAnalyzing true w))
      else w
  | None => w
  end.

(** [handlePredict], from its [await] on: [setPrediction(result)], or the
    [alert] of the [catch]; [setIsAnalyzing(false)] in the [finally]. *)
Definition handlePredict_settled (res : ServiceResult Cause) (w : State)
  : State :=
  let '(outcome, tr) := classificationAfter res (trace w) in
  let w1 := setTrace tr w in
  let w2 :=
    match outcome with
    | Fulfilled result => setPrediction (Some result) w1
    | Rejected _ =>
        alert "Error analyzing image. Please check your API key." w1
    end in
  setIsAnalyzing false w2.

(** [handleGenerateReport], up to its [await]. *)
Definition handleGenerateReport_call (w : State) : State :=
  let '(res, tr) :=
    sendRequest (getAI rt) (reportRequest (summaryText w)) (trace w) in
  setInflight (inflight w ++ [ReportCall res (step w)])
    (setTrace tr (setIsAnalyzing true w)).

(** [handleGenerateReport], from its [await] on: [setFinalReport(report)]
    and [nextStep()], or the [alert]; [setIsAnalyzing(false)]. *)
Definition handleGenerateReport_settled (res : ServiceResult Cause)
    (closureStep : ProjectStep) (w : State) : State :=
  let '(outcome, tr) := reportAfter res (trace w) in
  let w1 := setTrace tr w in
  let w2 :=
    match outcome with
    | Fulfilled report => nextStep closureStep (setFinalReport report w1)
    | Rejected _ => alert "Error generating report." w1
    end in
  setIsAnalyzing false w2.

(** [handleImageUpload]: with a file chosen, a read starts. *)
Definition handleImageUpload (hasFile : bool) (w : State) : State :=
  if hasFile then setReading (S (reading w)) w else w.

(** [reader.onloadend]: [setTestImage(reader.result)], [setPrediction(null)]. *)
Definition onloadend (result : option string) (w : State) : State :=
  setPrediction None (setTestImage result (setReading (pred (reading w)) w)).

(** [window.location.reload()]: the component starts anew, the intervals,
    the reads and the calls in flight are gone; what was sent, logged and
    alerted has happened. *)
Definition reload (w : State) : State :=
  mkState INTRO CatsVsDogs INITIAL_LAYERS Simulator.initialApp None None false
    EmptyString EmptyString 0%nat [] (trace w) (alerts w).

(** *** What can happen, and when *)

Inductive Event : Type :=
  | ClickNext
  | ClickBack
  | ClickDataset (d : DatasetType)
  | ClickResetArchitecture
  | ClickStartTraining
  | TimerFires (id : nat) (d : Simulator.Draws)
  | ChooseFile (hasFile : bool)
  | FileLoaded (result : option string)
  | ClickRemoveImage
  | ClickPredict
  | TypeSummary (s : string)
  | ClickGenerateReport
  | CallSettles (i : nat)
  | ClickRestart.

(** The button that goes forward is there and enabled: every step but the
    last has one, and the one of the training step has
    [disabled={isTraining || trainingData.length === 0}]. *)
Definition nextEnabled (w : State) : bool :=
  match step w with
  | SUMMARY => false
  | TRAINING => Simulator.evaluateEnabled (training w)
  | _ => true
  end.

(** Every step but the first has a button [Back]. *)
Definition backRendered (w : State) : bool :=
  negb (bool_decide (step w = INTRO)).

(** [Run Prediction]: [disabled={!testImage || isAnalyzing}]. *)
Definition predictEnabled (w : State) : bool :=
  bool_decide (step w = EVALUATION) &&
  negb (negb (truthy (testImage w)) || isAnalyzing w).

(** [Generate AI Learning Report]: [disabled={!summaryText || isAnalyzing}]. *)
Definition generateEnabled (w : State) : bool :=
  bool_decide (step w = SUMMARY) &&
  negb (String.eqb (summaryText w) EmptyString || isAnalyzing w).

(** Removing the [i]-th element. *)
Definition remove_at {A : Type} (i : nat) (l : list A) : list A :=
  take i l ++ drop (S i) l.

Definition handle (w : State) (ev : Event) : State :=
  match ev with
  | ClickNext => if nextEnabled w then nextStep (step w) w else w
  | ClickBack => if backRendered w then prevStep (step w) w else w
  | ClickDataset d =>
      if bool_decide (step w = DATASET) then setDataset d w else w
  | ClickResetArchitecture =>
      if bool_decide (step w = ARCHITECTURE) then setLayers INITIAL_LAYERS w
      else w
  | ClickStartTraining =>
      if bool_decide (step w = TRAINING)
      then setTraining (Simulator.click (training w)) w
      else w
  | TimerFires id d => setTraining (Simulator.fire id d (training w)) w
  | ChooseFile hasFile =>
      if bool_decide (step w = EVALUATION) && negb (truthy (testImage w))
      then handleImageUpload hasFile w
      else w
  | FileLoaded result =>
      if (0 <? reading w)%nat then onloadend result w else w
  | ClickRemoveImage =>
      if bool_decide (step w = EVALUATION) && truthy (testImage w)
      then setTestImage None w
      else w
  | ClickPredict => if predictEnabled w then handlePredict_call w else w
  | TypeSummary s =>
      if bool_decide (step w = SUMMARY) then setSummaryText s w else w
  | ClickGenerateReport =>
      if generateEnabled w then handleGenerateReport_call w else w
  | CallSettles i =>
      match inflight w !! i with
      | Some (PredictCall res) =>
          handlePredict_settled res (setInflight (remove_at i (inflight w)) w)
      | Some (ReportCall res closureStep) =>
          handleGenerateReport_settled res closureStep
            (setInflight (remove_at i (inflight w)) w)
      | None => w
      end
  | ClickRestart =>
      if bool_decide (step w = SUMMARY) then reload w else w
  end.

Definition play (evs : list Event) (w : State) : State := foldl handle w evs.

(** *** What holds of every state of the wizard *)

(** A request the wizard sends: a classification of a non-empty image for
    one of the four datasets with the summary of the initial layers, or a
    report on a non-empty reflection. *)
Definition wizardRequest (req : Request) : Prop :=
  (∃ (image : string) (d : DatasetType),
      image ≠ EmptyString ∧
      req = classificationRequest image (datasetId d)
              (archSummary INITIAL_LAYERS)) ∨
  (∃ summary : string,
      summary ≠ EmptyString ∧ req = reportRequest summary).

(** A call in flight was made from the summary step, if it is a call for a
    report, and holds the answer of the service to one of the requests
    [sent]: to the request number [n], which was sent as the call number
    [n]. *)
Definition callResult (c : Pending) : ServiceResult Cause :=
  match c with
  | PredictCall res => res
  | ReportCall res _ => res
  end.

Definition isClassification (req : Request) : Prop :=
  ∃ imageData dataset architecture : string,
    req = classificationRequest imageData dataset architecture.

Definition goodCall (sent : list Request) (c : Pending) : Prop :=
  ∃ (n : nat) (req : Request),
    sent !! n = Some req ∧
    callResult c = generateContent rt (getAI rt) n req ∧
    match c with
    | PredictCall _ => isClassification req
    | ReportCall _ closureStep => closureStep = SUMMARY
    end.

(** A value is the parsed text of the response to one of the requests
    [sent], a classification request: the service resolved the call that
    sent the request number [n] with a response whose text [JSON.parse]
    turns into the value. *)
Definition parsedResponse (sent : list Request) (v : json) : Prop :=
  ∃ (n : nat) (req : Request) (r : Response),
    sent !! n = Some req ∧
    isClassification req ∧
    generateContent rt (getAI rt) n req = Resolves r ∧
    JSON_parse rt (text r) = Some v.

Definition invariant (w : State) : Prop :=
  layers w = INITIAL_LAYERS ∧
  (length (inflight w) ≤ 1)%nat ∧
  (isAnalyzing w = true ↔ inflight w ≠ []) ∧
  Forall (goodCall (requests (trace w))) (inflight w) ∧
  (∃ ph, Simulator.inPhase ph (training w)) ∧
  (step w = EVALUATION ∨ step w = SUMMARY →
   Simulator.inPhase Simulator.Finished (training w)) ∧
  (∀ v, prediction w = Some v → parsedResponse (requests (trace w)) v) ∧
  Forall wizardRequest (requests (trace w)).

End WithRuntime.

(** *** The sessions of the examples *)

(** From the first step to the training step, a run of 15 epochs, and on
    to the evaluation step. *)
Definition trainedSession : list Event :=
  replicate 4 ClickNext ++ [ClickStartTraining] ++
  replicate 15 (TimerFires 0 Simulator.halfDraws) ++ [ClickNext].

(** Then an image is loaded and a prediction asked for, which settles. *)
Definition predictionSession : list Event :=
  trainedSession ++
  [ChooseFile true; FileLoaded (Some sampleImage); ClickPredict;
   CallSettles 0].

(** Then on to the summary step, where a report is written. *)
Definition reportSession : list Event :=
  predictionSession ++
  [ClickNext; TypeSummary sampleReflection; ClickGenerateReport;
   CallSettles 0].

End Wizard.

(** ** Properties of the metrics simulator *)

Section SimulatorFacts.
Import Simulator.

(** *** One tick *)

Lemma fire_active (id : nat) (c : Interval) (d : Draws) (w : App) :
  timers w !! id = Some c → cleared c = false →
  fire id d w = callback id c d w.
Proof. intros Hc Hcl. unfold fire. now rewrite Hc, Hcl. Qed.

Lemma fire_inactive (id : nat) (d : Draws) (w : App) :
  active id w = false → fire id d w = w.
Proof.
  unfold active, fire. destruct (timers w !! id) as [c|]; [|done].
  destruct (cleared c); [done|discriminate].
Qed.

Lemma active_Some (id : nat) (w : App) :
  active id w = true ↔
  ∃ c, timers w !! id = Some c ∧ cleared c = false.
Proof.
  unfold active. destruct (timers w !! id) as [c|] eqn:E.
  - destruct (cleared c) eqn:Ec; simpl; split.
    + discriminate.
    + intros (c' & [= <-] & H). congruence.
    + eauto.
    + done.
  - split; [discriminate|]. intros (c' & [=] & _).
Qed.

Lemma fire_data (id : nat) (d : Draws) (w : App) :
  trainingData (fire id d w) = trainingData w ∨
  ∃ e, trainingData (fire id d w) = updater e d (trainingData w).
Proof.
  unfold fire. destruct (timers w !! id) as [c|]; [|by left].
  destruct (cleared c); [by left|]. right. by exists (currentEpoch c + 1).
Qed.


(** *** The emitted point *)

Lemma newPoint_spec (e : Z) (d : Draws) (prev : list TrainingMetric) :
  newPoint e d prev =
  spec_emission (last prev) e
    (rnd_acc d * 0.08) (rnd_val_acc d * 0.06) (rnd_loss d * 0.15).
Proof.
  unfold newPoint, spec_emission, newAcc, newValAcc, newLoss,
    lastAcc, lastValAcc, lastLoss.
  by destruct (last prev).
Qed.

Lemma scaled_draw (r b : Q) :
  (0 < b)%Q → unit_draw r → drawn_from 0 b (r * b).
Proof. intros Hb [H0 H1]. split; nra. Qed.

(** The seed values lie within the bounds of a point. *)
Lemma last_in_bounds (l : list TrainingMetric) :
  Forall in_bounds l →
  (0.45 <= lastAcc l <= 0.98)%Q ∧ (0.42 <= lastValAcc l <= 0.95)%Q ∧
  (0.1 <= lastLoss l)%Q.
Proof.
  intros Hl. unfold lastAcc, lastValAcc, lastLoss.
  destruct (last l) as [p|] eqn:E.
  - apply last_Some in E as [l' ->].
    rewrite Forall_app, Forall_singleton in Hl. destruct Hl as [_ Hp].
    unfold in_bounds in Hp. tauto.
  - repeat split; lra.
Qed.

Lemma newPoint_in_bounds (e : Z) (d : Draws) (l : list TrainingMetric) :
  Forall in_bounds l → unit_draws d → in_bounds (newPoint e d l).
Proof.
  intros Hl ([Ha _] & [Hv _] & _).
  destruct (last_in_bounds l Hl) as ((A1 & A2) & (V1 & V2) & L1).
  unfold in_bounds, newPoint, newAcc, newValAcc, newLoss; simpl.
  repeat split.
  - apply Q.min_glb; [lra|nra].
  - apply Q.le_min_l.
  - apply Q.min_glb; [lra|nra].
  - apply Q.le_min_l.
  - apply Q.le_max_l.
Qed.

Lemma newPoint_no_worse (e : Z) (d : Draws) (l : list TrainingMetric)
    (p : TrainingMetric) :
  Forall in_bounds l → unit_draws d → last l = Some p →
  no_worse p (newPoint e d l).
Proof.
  intros Hl ([Ha _] & [Hv _] & [Ho _]) Hp.
  destruct (last_in_bounds l Hl) as ((A1 & A2) & (V1 & V2) & L1).
  revert A1 A2 V1 V2 L1.
  unfold no_worse, newPoint, newAcc, newValAcc, newLoss,
    lastAcc, lastValAcc, lastLoss; rewrite Hp; simpl.
  intros. repeat split.
  - apply Q.min_glb; [lra|nra].
  - apply Q.min_glb; [lra|nra].
  - apply Q.max_lub; [lra|nra].
Qed.

Lemma weakly_improving_snoc (l : list TrainingMetric) (x : TrainingMetric) :
  weakly_improving l →
  (∀ p, last l = Some p → no_worse p x) →
  weakly_improving (l ++ [x]).
Proof.
  intros Hl Hx i p q Hi HSi.
  destruct (decide (S i < length l)%nat) as [Hlt|Hge].
  - rewrite lookup_app_l in Hi, HSi by lia. eauto.
  - assert (S i = length l) as E.
    { apply lookup_lt_Some in HSi. rewrite length_app in HSi. simpl in HSi. lia. }
    rewrite lookup_app_l in Hi by lia.
    rewrite E, lookup_app_r, Nat.sub_diag in HSi by lia.
    injection HSi as <-. apply Hx.
    rewrite last_lookup. by replace (Nat.pred (length l)) with i by lia.
Qed.

Lemma sound_series_nil : sound_series [].
Proof. split; [constructor|]. intros i p q Hi. by rewrite lookup_nil in Hi. Qed.

Lemma sound_series_updater (e : Z) (d : Draws) (l : list TrainingMetric) :
  unit_draws d → sound_series l → sound_series (updater e d l).
Proof.
  intros Hd [Hb Hm]. split; unfold updater.
  - rewrite Forall_app, Forall_singleton. split; [done|].
    by apply newPoint_in_bounds.
  - apply weakly_improving_snoc; [done|].
    intros p Hp. by apply newPoint_no_worse.
Qed.

Lemma sound_series_step (w : App) (ev : Event) :
  unit_event ev → sound_series (trainingData w) →
  sound_series (trainingData (step w ev)).
Proof.
  destruct ev as [|id d]; simpl; intros Hd Hw.
  - unfold click. destruct (startButtonRendered w); [|done].
    apply sound_series_nil.
  - destruct (fire_data id d w) as [->|[e ->]]; [done|].
    by apply sound_series_updater.
Qed.

Lemma sound_series_exec (evs : list Event) (w : App) :
  Forall unit_event evs → sound_series (trainingData w) →
  sound_series (trainingData (exec evs w)).
Proof.
  unfold exec. revert w.
  induction evs as [|ev evs IH]; intros w Hevs Hw; simpl; [done|].
  apply Forall_cons in Hevs as [Hev Hevs].
  apply IH; [done|]. by apply sound_series_step.
Qed.

(** *** A run, tick by tick *)

Lemma fire_running (id : nat) (e N : Z) (d : Draws) (w : App) :
  timers w !! id = Some (mkInterval e N false) → e < N →
  fire id d w =
  {| isTraining := isTraining w;
     trainingData := updater (e + 1) d (trainingData w);
     timers := <[id := mkInterval (e + 1) N false]> (timers w);
     nextTimer := nextTimer w |}.
Proof.
  intros Hc He. rewrite (fire_active id _ d w Hc eq_refl).
  unfold callback; simpl.
  by replace (N <=? e) with false by (symmetry; apply Z.leb_gt; lia).
Qed.

Lemma fire_final (id : nat) (e N : Z) (d : Draws) (w : App) :
  timers w !! id = Some (mkInterval e N false) → N <= e →
  fire id d w =
  {| isTraining := false;
     trainingData := updater (e + 1) d (trainingData w);
     timers := <[id := mkInterval (e + 1) N true]> (timers w);
     nextTimer := nextTimer w |}.
Proof.
  intros Hc He. rewrite (fire_active id _ d w Hc eq_refl).
  unfold callback; simpl.
  by replace (N <=? e) with true by (symmetry; apply Z.leb_le; lia).
Qed.

Lemma epochs_updater (e : Z) (d : Draws) (l : list TrainingMetric) :
  epoch <$> updater e d l = (epoch <$> l) ++ [e].
Proof. unfold updater. by rewrite fmap_app. Qed.

Lemma epochsFrom_length (e : Z) (n : nat) : length (epochsFrom e n) = n.
Proof. revert e. induction n as [|n IH]; intros e; simpl; [done|]. by rewrite IH. Qed.

Lemma epochsFrom_lookup (n : nat) (e : Z) (i : nat) :
  (i < n)%nat → epochsFrom e n !! i = Some (e + Z.of_nat i).
Proof.
  revert e i. induction n as [|n IH]; intros e i Hi; [lia|].
  destruct i as [|i]; simpl.
  - f_equal. lia.
  - rewrite IH by lia. f_equal. lia.
Qed.

(** The ticks that come before the last one of a run: each appends a
    point, whose epoch is the counter after its increment, and leaves the
    interval scheduled. *)
Lemma fires_running (ds : list Draws) (id : nat) (e N : Z) (w : App) :
  timers w !! id = Some (mkInterval e N false) →
  e + Z.of_nat (length ds) <= N →
  epoch <$> trainingData (fires id ds w) =
    (epoch <$> trainingData w) ++ epochsFrom (e + 1) (length ds) ∧
  isTraining (fires id ds w) = isTraining w ∧
  timers (fires id ds w) =
    <[id := mkInterval (e + Z.of_nat (length ds)) N false]> (timers w) ∧
  nextTimer (fires id ds w) = nextTimer w.
Proof.
  revert e w. unfold fires.
  induction ds as [|d ds IH]; intros e w Hc Hlen; simpl in *.
  - rewrite app_nil_r, Z.add_0_r, insert_id by done. done.
  - rewrite (fire_running id e N d w Hc) by lia.
    match goal with |- context [foldl _ ?w1 ds] =>
      destruct (IH (e + 1) w1) as (He & Ht & Hm & Hn);
        [simpl; apply lookup_insert_eq|lia|]
    end.
    rewrite He, Ht, Hm, Hn; simpl.
    rewrite epochs_updater, <- app_assoc, insert_insert_eq. simpl.
    by replace (e + 1 + Z.of_nat (length ds))
      with (e + Z.of_nat (S (length ds))) by lia.
Qed.

(** A run left alone comes to its end: from epoch [e <= N] the interval
    ticks [N - e + 1] times, and the last tick clears it. *)
Lemma runFrom_completes (n : nat) :
  ∀ (fuel : nat) (id : nat) (rng : nat → Draws) (k : nat) (w : App) (e N : Z),
    timers w !! id = Some (mkInterval e N false) →
    N - e = Z.of_nat n → (n < fuel)%nat →
    ∃ w', runFrom fuel id rng k w = (true, w') ∧
      epoch <$> trainingData w' =
        (epoch <$> trainingData w) ++ epochsFrom (e + 1) (S n) ∧
      isTraining w' = false ∧
      timers w' = <[id := mkInterval (N + 1) N true]> (timers w) ∧
      nextTimer w' = nextTimer w.
Proof.
  induction n as [|n IH]; intros fuel id rng k w e N Hc He Hfuel;
    (destruct fuel as [|fuel]; [lia|]); simpl.
  - assert (e = N) as -> by lia.
    unfold active at 1. rewrite Hc. simpl.
    rewrite (fire_final id N N (rng k) w Hc) by lia.
    eexists. split.
    + destruct fuel; simpl; unfold active; simpl;
        by rewrite lookup_insert_eq.
    + simpl. by rewrite epochs_updater.
  - unfold active at 1. rewrite Hc. simpl.
    rewrite (fire_running id e N (rng k) w Hc) by lia.
    match goal with |- context [runFrom _ _ _ _ ?w1] =>
      destruct (IH fuel id rng (S k) w1 (e + 1) N)
        as (w' & Hrun & Hep & Ht & Hm & Hn);
        [simpl; apply lookup_insert_eq|lia|lia|]
    end.
    exists w'. rewrite Hrun, Hep, Ht, Hm, Hn. simpl.
    rewrite epochs_updater, <- app_assoc, insert_insert_eq. done.
Qed.

(** *** Starting, and the gate of the start button *)








Lemma calls_isTraining (cs : list Call) (w : App) :
  isTraining w = true → isTraining (calls cs w) = true.
Proof.
  unfold calls. revert w.
  induction cs as [|[] cs IH]; intros w Hw; simpl; [done|].
  by apply IH.
Qed.

Lemma halfDraws_unit : unit_draws halfDraws.
Proof. repeat split; vm_compute; (reflexivity || discriminate). Qed.

(** *** The claims about the simulator *)

(** C1, as the code behaves. For every epoch count [N > 0], a run started
    with [totalEpochs = N] and left to run comes to its end (any fuel of at
    least [N] ticks shows it): exactly [N] points are recorded; the interval
    is then cleared, [isTraining] is false, and firing the interval again
    changes nothing; when no other interval was scheduled before the start,
    no interval at all changes the state any more.  The epochs of the
    points are 2, 3, .., N + 1, the [i]-th point having epoch [i + 2], and
    not the 1, 2, .., N of the claim: every updater runs after the
    [currentEpoch++] of its tick.  [simulateTraining] is the case
    [N = 15]. *)
Theorem run_to_completion (N : Z) (w : App) (rng : nat → Draws) (fuel : nat) :
  0 < N → (Z.to_nat N ≤ fuel)%nat →
  ∃ w', run fuel (nextTimer w) rng (startRun N w) = (true, w') ∧
    length (trainingData w') = Z.to_nat N ∧
    epoch <$> trainingData w' = epochsFrom 2 (Z.to_nat N) ∧
    (∀ (i : nat) (p : TrainingMetric),
        trainingData w' !! i = Some p → epoch p = Z.of_nat i + 2) ∧
    active (nextTimer w) w' = false ∧
    isTraining w' = false ∧
    (∀ d, fire (nextTimer w) d w' = w') ∧
    ((∀ id, active id w = false) → ∀ id d, fire id d w' = w').
Proof.
  intros HN Hfuel.
  destruct (runFrom_completes (Z.to_nat (N - 1)) fuel (nextTimer w) rng 0%nat
              (startRun N w) 1 N) as (w' & Hrun & Hep & Ht & Hm & _);
    [simpl; apply lookup_insert_eq|lia|lia|].
  replace (S (Z.to_nat (N - 1))) with (Z.to_nat N) in Hep by lia.
  change (epoch <$> trainingData w' = epochsFrom 2 (Z.to_nat N)) in Hep.
  simpl in Hm. rewrite insert_insert_eq in Hm.
  assert (∀ id, active id w' =
            if decide (id = nextTimer w) then false else active id w) as Hact.
  { intros id. unfold active. rewrite Hm. case_decide as E.
    - subst. by rewrite lookup_insert_eq.
    - by rewrite lookup_insert_ne. }
  assert (active (nextTimer w) w' = false) as Hoff.
  { rewrite Hact. by case_decide. }
  exists w'. repeat split; try done.
  - rewrite <- (length_fmap epoch), Hep. apply epochsFrom_length.
  - intros i p Hi.
    assert ((epoch <$> trainingData w') !! i = Some (epoch p)) as Hi'
      by (by rewrite list_lookup_fmap, Hi).
    rewrite Hep in Hi'.
    assert (i < Z.to_nat N)%nat as Hlt.
    { apply lookup_lt_Some in Hi'. by rewrite epochsFrom_length in Hi'. }
    rewrite epochsFrom_lookup in Hi' by done. injection Hi' as <-. lia.
  - intros d. by apply fire_inactive.
  - intros Hidle id d. apply fire_inactive. rewrite Hact.
    case_decide; [done|apply Hidle].
Qed.

(** [simulateTraining] on the initial component, left to run: 15 points,
    of epochs 2 to 16. *)
Lemma run_to_completion_witness :
  0 < 15 ∧ (Z.to_nat 15 ≤ 20)%nat ∧
  ∃ w', run 20 0 (λ _, halfDraws) (simulateTraining initialApp) = (true, w') ∧
    length (trainingData w') = 15%nat ∧
    epoch <$> trainingData w' =
      [2; 3; 4; 5; 6; 7; 8; 9; 10; 11; 12; 13; 14; 15; 16] ∧
    (∀ (i : nat) (p : TrainingMetric),
        trainingData w' !! i = Some p → epoch p = Z.of_nat i + 2) ∧
    active 0 w' = false ∧
    isTraining w' = false ∧
    (∀ d, fire 0 d w' = w') ∧
    ((∀ id, active id initialApp = false) → ∀ id d, fire id d w' = w').
Proof.
  split; [lia|]. split; [simpl; lia|].
  apply (run_to_completion 15 initialApp (λ _, halfDraws) 20); simpl; lia.
Defined.

(** C2. Each point a tick emits is the point of the specification's
    emission rule, computed from the previous point of the series (or from
    the seed values accuracy = 0.45, val_accuracy = 0.42, loss = 1.2 when
    the series is empty) with these three increments: the tick's three
    [Math.random()] results multiplied by 0.08, by 0.06 and by 0.15, which
    lie in [0, 0.08), [0, 0.06) and [0, 0.15). *)
Theorem tick_follows_emission_rule
    (id : nat) (c : Interval) (d : Draws) (w : App) :
  timers w !! id = Some c → cleared c = false → unit_draws d →
  drawn_from 0 0.08 (rnd_acc d * 0.08) ∧
  drawn_from 0 0.06 (rnd_val_acc d * 0.06) ∧
  drawn_from 0 0.15 (rnd_loss d * 0.15) ∧
  trainingData (fire id d w) =
    trainingData w ++
      [spec_emission (last (trainingData w)) (currentEpoch c + 1)
         (rnd_acc d * 0.08) (rnd_val_acc d * 0.06) (rnd_loss d * 0.15)].
Proof.
  intros Hc Hcl (Ha & Hv & Hl).
  split; [apply scaled_draw; [lra|done]|].
  split; [apply scaled_draw; [lra|done]|].
  split; [apply scaled_draw; [lra|done]|].
  rewrite (fire_active id c d w Hc Hcl). unfold callback, updater; simpl.
  by rewrite newPoint_spec.
Qed.

(** The first tick of a run with the draws 0.5: from the seed values, the
    increments 0.04, 0.03 and 0.075. *)
Lemma tick_follows_emission_rule_witness :
  timers (simulateTraining initialApp) !! 0%nat = Some (mkInterval 1 15 false) ∧
  cleared (mkInterval 1 15 false) = false ∧ unit_draws halfDraws ∧
  drawn_from 0 0.08 (0.5 * 0.08) ∧
  drawn_from 0 0.06 (0.5 * 0.06) ∧
  drawn_from 0 0.15 (0.5 * 0.15) ∧
  trainingData (fire 0 halfDraws (simulateTraining initialApp)) =
    [spec_emission None 2 (0.5 * 0.08) (0.5 * 0.06) (0.5 * 0.15)].
Proof.
  split; [reflexivity|]. split; [reflexivity|].
  split; [apply halfDraws_unit|].
  apply (tick_follows_emission_rule 0 (mkInterval 1 15 false) halfDraws
           (simulateTraining initialApp));
    [reflexivity|reflexivity|apply halfDraws_unit].
Defined.

(** C3. Whatever the draws in [0, 1), every point of the series after a
    start, however many ticks and clicks follow, has
    0.45 <= accuracy <= 0.98, 0.42 <= val_accuracy <= 0.95, loss >= 0.1
    and val_loss = loss * 1.1. *)
Theorem emitted_points_in_bounds (N : Z) (w : App) (evs : list Event) :
  Forall unit_event evs →
  Forall in_bounds (trainingData (exec evs (startRun N w))).
Proof.
  intros Hevs.
  apply (sound_series_exec evs (startRun N w) Hevs sound_series_nil).
Qed.

Lemma emitted_points_in_bounds_witness :
  Forall unit_event [Fire 0 halfDraws; Fire 0 halfDraws; Click] ∧
  Forall in_bounds
    (trainingData
       (exec [Fire 0 halfDraws; Fire 0 halfDraws; Click]
          (startRun 15 initialApp))).
Proof.
  assert (Forall unit_event [Fire 0 halfDraws; Fire 0 halfDraws; Click]) as H
    by (repeat constructor; apply halfDraws_unit).
  split; [exact H|].
  apply (emitted_points_in_bounds 15 initialApp _ H).
Defined.

(** C6, as the code has it. The simulator has no stop operation. After the
    [k]-th point of a run of [N] epochs, [k < N], exactly [k] points are
    recorded; the run is still marked running and its interval is still
    scheduled, so its next tick emits the point number [k + 1]; and no
    sequence of calls of the simulator's handlers leaves the run halted
    with its [k] points. *)
Theorem run_cannot_be_stopped (N : Z) (w : App) (ds : list Draws) :
  Z.of_nat (length ds) < N →
  length (trainingData (fires (nextTimer w) ds (startRun N w))) = length ds ∧
  isTraining (fires (nextTimer w) ds (startRun N w)) = true ∧
  active (nextTimer w) (fires (nextTimer w) ds (startRun N w)) = true ∧
  (∀ d, length (trainingData
                  (fire (nextTimer w) d
                     (fires (nextTimer w) ds (startRun N w)))) =
        S (length ds)) ∧
  (∀ cs k, ¬ halted k (calls cs (fires (nextTimer w) ds (startRun N w)))).
Proof.
  intros Hk.
  destruct (fires_running ds (nextTimer w) 1 N (startRun N w))
    as (Hep & Ht & Hm & _); [simpl; apply lookup_insert_eq|lia|].
  set (w' := fires (nextTimer w) ds (startRun N w)) in *.
  simpl in Hep, Ht, Hm. rewrite insert_insert_eq in Hm.
  assert (length (trainingData w') = length ds) as Hlen
    by (by rewrite <- (length_fmap epoch), Hep, epochsFrom_length).
  assert (timers w' !! nextTimer w =
            Some (mkInterval (1 + Z.of_nat (length ds)) N false)) as Hc
    by (by rewrite Hm, lookup_insert_eq).
  repeat split; try done.
  - unfold active. by rewrite Hc.
  - intros d. rewrite (fire_active _ _ d w' Hc eq_refl). simpl.
    unfold updater. rewrite length_app, Hlen. simpl. lia.
  - intros cs k (_ & Hoff & _).
    rewrite (calls_isTraining cs w' Ht) in Hoff. discriminate.
Qed.

Lemma run_cannot_be_stopped_witness :
  Z.of_nat (length [halfDraws; halfDraws]) < 15 ∧
  length (trainingData (fires 0 [halfDraws; halfDraws]
                          (simulateTraining initialApp))) = 2%nat ∧
  isTraining (fires 0 [halfDraws; halfDraws] (simulateTraining initialApp))
    = true ∧
  active 0 (fires 0 [halfDraws; halfDraws] (simulateTraining initialApp))
    = true.
Proof.
  split; [simpl; lia|].
  destruct (run_cannot_be_stopped 15 initialApp [halfDraws; halfDraws])
    as (H1 & H3 & H4 & _); [simpl; lia|].
  exact (conj H1 (conj H3 H4)).
Defined.

(** C8. Starting a run empties the series, whatever was recorded before,
    and the first tick after the start leaves a series of length exactly
    1: the first point of the new run, and nothing of the series before. *)
Theorem start_resets_series (N : Z) (w : App) (d : Draws) :
  trainingData (startRun N w) = [] ∧
  length (trainingData (fire (nextTimer w) d (startRun N w))) = 1%nat ∧
  (∀ id, active id (startRun N w) = true →
         length (trainingData (fire id d (startRun N w))) = 1%nat).
Proof.
  assert (timers (startRun N w) !! nextTimer w = Some (mkInterval 1 N false))
    as Hc by (simpl; apply lookup_insert_eq).
  split; [done|].
  rewrite (fire_active _ _ d _ Hc eq_refl). repeat split.
  intros id (c & Hid & Hcl)%active_Some.
  by rewrite (fire_active _ _ d _ Hid Hcl).
Qed.

(** A run of 15 epochs left to its end, then a second start: the series
    of 15 points is emptied, and the first tick of the new run leaves one
    point. *)
Lemma start_resets_series_witness :
  length (trainingData
            (run 15 0 (λ _, halfDraws) (simulateTraining initialApp)).2)
    = 15%nat ∧
  trainingData
    (simulateTraining
       (run 15 0 (λ _, halfDraws) (simulateTraining initialApp)).2) = [] ∧
  length (trainingData
            (fire 1 halfDraws
               (simulateTraining
                  (run 15 0 (λ _, halfDraws) (simulateTraining initialApp)).2)))
    = 1%nat.
Proof.
  split; [by vm_compute|].
  destruct (start_resets_series 15
              (run 15 0 (λ _, halfDraws) (simulateTraining initialApp)).2
              halfDraws) as (H1 & H2 & _).
  split; [exact H1|exact H2].
Defined.

(** C10. Whatever the draws in [0, 1), in the series after a start every
    point is no worse than the point before it: accuracy and val_accuracy
    do not decrease and loss does not increase. *)
Theorem series_weakly_improving (N : Z) (w : App) (evs : list Event) :
  Forall unit_event evs →
  weakly_improving (trainingData (exec evs (startRun N w))).
Proof.
  intros Hevs.
  apply (sound_series_exec evs (startRun N w) Hevs sound_series_nil).
Qed.

Lemma series_weakly_improving_witness :
  Forall unit_event [Fire 0 halfDraws; Fire 0 halfDraws; Fire 0 halfDraws] ∧
  weakly_improving
    (trainingData
       (exec [Fire 0 halfDraws; Fire 0 halfDraws; Fire 0 halfDraws]
          (startRun 15 initialApp))).
Proof.
  assert (Forall unit_event
            [Fire 0 halfDraws; Fire 0 halfDraws; Fire 0 halfDraws]) as H
    by (repeat constructor; apply halfDraws_unit).
  split; [exact H|].
  apply (series_weakly_improving 15 initialApp _ H).
Defined.

End SimulatorFacts.

(** ** Properties of the analysis gateway *)

Section GatewayFacts.
Import Gateway.
Context {Cause : Type}.
Implicit Types (rt : Runtime Cause) (tr : Trace Cause).

(** How [analyzeClassification] settles, case by case. *)
Lemma analyzeClassification_settles rt (imageData dataset architecture : string) tr :
  analyzeClassification rt imageData dataset architecture tr =
  let req := classificationRequest imageData dataset architecture in
  let sent := {| requests := requests tr ++ [req]; console := console tr |} in
  let failed e :=
    (Rejected e,
     {| requests := requests tr ++ [req];
        console := console tr ++ [("Gemini Classification Error:", e)] |}) in
  match generateContent rt (getAI rt) (length (requests tr)) req with
  | Rejects c => failed (ServiceFailure c)
  | Resolves r =>
      match JSON_parse rt (text r) with
      | Some v => (Fulfilled v, sent)
      | None => failed JsonSyntaxError
      end
  end.
Proof.
  unfold analyzeClassification, tryCatch, await, models_generateContent,
    parseJSON, console_error, throw, resolve.
  destruct (generateContent rt (getAI rt) (length (requests tr)) _) as [r|c];
    [|done].
  by destruct (JSON_parse rt (text r)).
Qed.

(** How [generateFinalReport] settles, case by case. *)
Lemma generateFinalReport_settles rt (summary : string) tr :
  generateFinalReport rt summary tr =
  let req := reportRequest summary in
  let sent := {| requests := requests tr ++ [req]; console := console tr |} in
  match generateContent rt (getAI rt) (length (requests tr)) req with
  | Rejects c => (Rejected (ServiceFailure c), sent)
  | Resolves r => (Fulfilled (text r), sent)
  end.
Proof.
  unfold generateFinalReport, await, models_generateContent, resolve.
  by destruct (generateContent rt (getAI rt) (length (requests tr)) _).
Qed.

(** *** The claims about the gateway *)

(** C4, as the code has it. When the service resolves, [classify] fails
    exactly when [JSON.parse] rejects the response text: it then throws the
    parser's [SyntaxError], which is not a failure of the service call,
    after one request and one line on the console. A text that parses is
    returned as parsed, whether or not the value conforms to the declared
    shape; nothing is put in the place of a missing member. *)
Theorem classify_parses_without_validation
    rt (imageData dataset architecture : string) tr (r : Response) :
  generateContent rt (getAI rt) (length (requests tr))
    (classificationRequest imageData dataset architecture) = Resolves r →
  (JSON_parse rt (text r) = None →
   analyzeClassification rt imageData dataset architecture tr =
     (Rejected JsonSyntaxError,
      {| requests :=
           requests tr ++ [classificationRequest imageData dataset architecture];
         console :=
           console tr ++ [("Gemini Classification Error:", JsonSyntaxError)] |})
   ∧ ∀ c : Cause, JsonSyntaxError ≠ ServiceFailure c) ∧
  (∀ v : json, JSON_parse rt (text r) = Some v →
   analyzeClassification rt imageData dataset architecture tr =
     (Fulfilled v,
      {| requests :=
           requests tr ++ [classificationRequest imageData dataset architecture];
         console := console tr |})).
Proof.
  intros Hr. rewrite analyzeClassification_settles. cbv zeta. rewrite Hr. split.
  - intros ->. split; [done|]. intros c. discriminate.
  - by intros v ->.
Qed.

(** C5. When the service call fails, [classify] and [generateReport] both
    fail with the failure of the service call carrying the very cause the
    call was rejected with; nothing is returned, and exactly one request
    was sent. ([classify] also writes the failure on the console.) *)
Theorem service_failure_is_propagated
    rt (imageData dataset architecture summary : string) tr (cause : Cause) :
  (generateContent rt (getAI rt) (length (requests tr))
     (classificationRequest imageData dataset architecture) = Rejects cause →
   analyzeClassification rt imageData dataset architecture tr =
     (Rejected (ServiceFailure cause),
      {| requests :=
           requests tr ++ [classificationRequest imageData dataset architecture];
         console :=
           console tr ++
             [("Gemini Classification Error:", ServiceFailure cause)] |})) ∧
  (generateContent rt (getAI rt) (length (requests tr))
     (reportRequest summary) = Rejects cause →
   generateFinalReport rt summary tr =
     (Rejected (ServiceFailure cause),
      {| requests := requests tr ++ [reportRequest summary];
         console := console tr |})).
Proof.
  split; intros Hr.
  - rewrite analyzeClassification_settles. cbv zeta. by rewrite Hr.
  - rewrite generateFinalReport_settles. cbv zeta. by rewrite Hr.
Qed.

(** C9, as the code has it. Whatever the reflection text and whatever text
    the service resolves with, [generateReport] returns that text as it
    is, after exactly one request; it checks nothing about it, so an empty
    text is returned like any other. *)
Theorem report_returns_text_unchecked
    rt (summary : string) tr (r : Response) :
  generateContent rt (getAI rt) (length (requests tr))
    (reportRequest summary) = Resolves r →
  generateFinalReport rt summary tr =
    (Fulfilled (text r),
     {| requests := requests tr ++ [reportRequest summary];
        console := console tr |}).
Proof.
  intros Hr. rewrite generateFinalReport_settles. cbv zeta. by rewrite Hr.
Qed.

End GatewayFacts.

(** *** The gateway against mocked services *)

Section GatewayExamples.
Import Gateway.

(** The reference parser on the texts of the examples. *)
Lemma parseText_examples :
  parseText catText = Some catValue ∧
  parseText noFeaturesText = Some noFeaturesValue ∧
  parseText wrongTypeText = Some wrongTypeValue ∧
  parseText "not json" = None ∧
  parseText EmptyString = None.
Proof. by vm_compute. Qed.

Lemma conforms_examples :
  conforms classificationSchema catValue = true ∧
  conforms classificationSchema noFeaturesValue = false ∧
  conforms classificationSchema wrongTypeValue = false.
Proof. by vm_compute. Qed.

(** A conforming response is returned with its members as they are. *)
Lemma classify_returns_conforming_value :
  analyzeClassification (mockRuntime (Resolves (mkResponse catText)))
    sampleImage "cats-vs-dogs" "Conv2D -> Dense" emptyTrace =
  (Fulfilled catValue,
   {| requests :=
        [classificationRequest sampleImage "cats-vs-dogs" "Conv2D -> Dense"];
      console := [] |}).
Proof. by vm_compute. Qed.

(** The text [not json]: the service resolves, [JSON.parse] throws. *)
Lemma classify_parses_without_validation_witness :
  generateContent (mockRuntime (Resolves (mkResponse "not json")))
    (getAI (mockRuntime (Resolves (mkResponse "not json"))))
    (length (requests (@emptyTrace string)))
    (classificationRequest sampleImage "fruits" "Conv2D") =
    Resolves (mkResponse "not json") ∧
  JSON_parse (mockRuntime (Resolves (mkResponse "not json"))) "not json" = None ∧
  analyzeClassification (mockRuntime (Resolves (mkResponse "not json")))
    sampleImage "fruits" "Conv2D" emptyTrace =
    (Rejected JsonSyntaxError,
     {| requests := [classificationRequest sampleImage "fruits" "Conv2D"];
        console := [("Gemini Classification Error:", JsonSyntaxError)] |}).
Proof.
  split; [reflexivity|]. split; [by vm_compute|].
  apply (classify_parses_without_validation
           (mockRuntime (Resolves (mkResponse "not json")))
           sampleImage "fruits" "Conv2D" emptyTrace (mkResponse "not json")
           eq_refl).
  by vm_compute.
Defined.

(** C4, as the specification states it, fails: a response without its
    required member [features], and one whose [confidence] is a string, do
    not conform to the declared shape, and [classify] returns each as its
    result instead of failing. *)
Lemma classify_returns_nonconforming_value :
  conforms classificationSchema noFeaturesValue = false ∧
  (analyzeClassification (mockRuntime (Resolves (mkResponse noFeaturesText)))
     sampleImage "cats-vs-dogs" "Conv2D -> Dense" emptyTrace).1 =
    Fulfilled noFeaturesValue ∧
  conforms classificationSchema wrongTypeValue = false ∧
  (analyzeClassification (mockRuntime (Resolves (mkResponse wrongTypeText)))
     sampleImage "cats-vs-dogs" "Conv2D -> Dense" emptyTrace).1 =
    Fulfilled wrongTypeValue.
Proof. by vm_compute. Qed.

(** A service that rejects the first call and would resolve the second:
    both operations fail with the cause of the first call, after one
    request. *)
Lemma service_failure_is_propagated_witness :
  generateContent (flakyRuntime "503" (mkResponse catText))
    (getAI (flakyRuntime "503" (mkResponse catText)))
    (length (requests (@emptyTrace string)))
    (classificationRequest sampleImage "fruits" "Conv2D") = Rejects "503" ∧
  analyzeClassification (flakyRuntime "503" (mkResponse catText))
    sampleImage "fruits" "Conv2D" emptyTrace =
    (Rejected (ServiceFailure "503"),
     {| requests := [classificationRequest sampleImage "fruits" "Conv2D"];
        console := [("Gemini Classification Error:", ServiceFailure "503")] |}) ∧
  generateContent (flakyRuntime "503" (mkResponse catText))
    (getAI (flakyRuntime "503" (mkResponse catText)))
    (length (requests (@emptyTrace string)))
    (reportRequest sampleReflection) = Rejects "503" ∧
  generateFinalReport (flakyRuntime "503" (mkResponse catText))
    sampleReflection emptyTrace =
    (Rejected (ServiceFailure "503"),
     {| requests := [reportRequest sampleReflection]; console := [] |}).
Proof.
  destruct (service_failure_is_propagated
              (flakyRuntime "503" (mkResponse catText))
              sampleImage "fruits" "Conv2D" sampleReflection emptyTrace "503")
    as [Hc Hr].
  split; [reflexivity|]. split; [exact (Hc eq_refl)|].
  split; [reflexivity|]. exact (Hr eq_refl).
Defined.

(** A non-empty report is returned as it is. *)
Lemma report_returns_text_unchecked_witness :
  generateContent (mockRuntime (Resolves (mkResponse "A fine report.")))
    (getAI (mockRuntime (Resolves (mkResponse "A fine report."))))
    (length (requests (@emptyTrace string)))
    (reportRequest sampleReflection) = Resolves (mkResponse "A fine report.") ∧
  generateFinalReport (mockRuntime (Resolves (mkResponse "A fine report.")))
    sampleReflection emptyTrace =
    (Fulfilled "A fine report."%string,
     {| requests := [reportRequest sampleReflection]; console := [] |}).
Proof.
  split; [reflexivity|].
  apply (report_returns_text_unchecked
           (mockRuntime (Resolves (mkResponse "A fine report.")))
           sampleReflection emptyTrace (mkResponse "A fine report.") eq_refl).
Defined.

(** C9, as the specification states it, fails: the empty text is returned
    as a successful result. *)
Lemma report_returns_empty_text :
  generateFinalReport (mockRuntime (Resolves (mkResponse EmptyString)))
    sampleReflection emptyTrace =
  (Fulfilled EmptyString,
   {| requests := [reportRequest sampleReflection]; console := [] |}).
Proof. reflexivity. Qed.

End GatewayExamples.

(** ** Further properties of the metrics simulator *)

Section SimulatorStates.
Import Simulator.

(** *** The states the component reaches *)

Lemma epochsFrom_snoc (n : nat) (e : Z) :
  epochsFrom e n ++ [e + Z.of_nat n] = epochsFrom e (S n).
Proof.
  revert e. induction n as [|n IH]; intros e.
  - simpl. by rewrite Z.add_0_r.
  - change (epochsFrom e (S (S n))) with (e :: epochsFrom (e + 1) (S n)).
    rewrite <- (IH (e + 1)).
    change (epochsFrom e (S n)) with (e :: epochsFrom (e + 1) n).
    rewrite <- app_comm_cons. do 3 f_equal. lia.
Qed.

Lemma inPhase_step (ph : Phase) (w : App) (ev : Event) :
  inPhase ph w → ∃ ph', inPhase ph' (step w ev).
Proof.
  destruct ph as [|k|]; simpl.
  - intros ->. destruct ev as [|id d]; simpl.
    + exists (Running 0). repeat split; try done. lia.
    + by exists Idle.
  - intros (Hk & Ht & Hep & Hm & Hn). destruct ev as [|id d]; simpl.
    + exists (Running k). unfold click, startButtonRendered.
      rewrite Ht. simpl. done.
    + destruct (decide (id = 0%nat)) as [->|Hid].
      * assert (timers w !! 0%nat =
                  Some (mkInterval (1 + Z.of_nat k) 15 false)) as Hc
          by (by rewrite Hm, lookup_singleton_eq).
        destruct (decide (S k < 15)%nat) as [Hlt|Hge].
        -- exists (Running (S k)).
           rewrite (fire_running 0 _ 15 d w Hc) by lia. simpl.
           rewrite epochs_updater, Hep, Hm, insert_singleton_eq.
           replace (1 + Z.of_nat k + 1) with (2 + Z.of_nat k) by lia.
           rewrite epochsFrom_snoc.
           repeat split; try done.
           by replace (2 + Z.of_nat k) with (1 + Z.of_nat (S k)) by lia.
        -- exists Finished. assert (k = 14%nat) as -> by lia.
           rewrite (fire_final 0 _ 15 d w Hc) by lia. simpl.
           rewrite epochs_updater, Hep, Hm, insert_singleton_eq.
           done.
      * exists (Running k). rewrite fire_inactive; [done|].
        unfold active. by rewrite Hm, lookup_singleton_ne.
  - intros (Ht & Hep & Hm & Hn). exists Finished.
    destruct ev as [|id d]; simpl.
    + unfold click, startButtonRendered.
      rewrite <- (length_fmap epoch), Hep, Ht. simpl. done.
    + rewrite fire_inactive; [done|]. unfold active. rewrite Hm.
      destruct (decide (id = 0%nat)) as [->|Hid].
      * by rewrite lookup_singleton_eq.
      * by rewrite lookup_singleton_ne.
Qed.

Lemma inPhase_exec (evs : list Event) (ph : Phase) (w : App) :
  inPhase ph w → ∃ ph', inPhase ph' (exec evs w).
Proof.
  unfold exec. revert ph w.
  induction evs as [|ev evs IH]; intros ph w Hw; simpl; [by exists ph|].
  destruct (inPhase_step ph w ev Hw) as [ph' Hph']. by apply (IH ph').
Qed.

Lemma reachable_phase (evs : list Event) :
  ∃ ph, inPhase ph (exec evs initialApp).
Proof. by apply (inPhase_exec evs Idle). Qed.

(** Once the run is over no event changes the state. *)
Lemma finished_step (w : App) (ev : Event) :
  inPhase Finished w → step w ev = w.
Proof.
  simpl. intros (Ht & Hep & Hm & Hn). destruct ev as [|id d]; simpl.
  - unfold click, startButtonRendered.
    rewrite <- (length_fmap epoch), Hep, Ht. done.
  - apply fire_inactive. unfold active. rewrite Hm.
    destruct (decide (id = 0%nat)) as [->|Hid].
    + by rewrite lookup_singleton_eq.
    + by rewrite lookup_singleton_ne.
Qed.

Lemma finished_exec (evs : list Event) (w : App) :
  inPhase Finished w → exec evs w = w.
Proof.
  unfold exec. induction evs as [|ev evs IH]; intros Hw; simpl; [done|].
  by rewrite (finished_step w ev Hw), IH.
Qed.

Lemma exec_app (evs evs' : list Event) (w : App) :
  exec (evs ++ evs') w = exec evs' (exec evs w).
Proof. unfold exec. apply foldl_app. Qed.




(** C6, as the specification states it, fails: after the first point of a
    run of [simulateTraining] no sequence of calls of the simulator's
    handlers halts the run with that one point recorded and marked not
    running, and no sequence of clicks and timer ticks reaches such a
    state; left as it is the run is still marked running, and its next
    tick emits a second point. *)
Lemma run_has_no_stop :
  (¬ ∃ cs : list Call,
       halted 1 (calls cs (fires 0 [halfDraws] (simulateTraining initialApp))))
  ∧ (¬ ∃ evs : list Event, halted 1 (exec evs initialApp))
  ∧ isTraining (fires 0 [halfDraws] (simulateTraining initialApp)) = true
  ∧ length (trainingData
       (fire 0 halfDraws (fires 0 [halfDraws] (simulateTraining initialApp))))
     = 2%nat.
Proof.
  split; [|split; [|split; reflexivity]].
  - intros [cs (_ & Hoff & _)].
    rewrite calls_isTraining in Hoff; [discriminate|reflexivity].
  - intros [evs (Hlen & Hoff & _)].
    destruct (reachable_phase evs) as [[|k|] H]; simpl in H.
    + rewrite H in Hlen. discriminate.
    + destruct H as (_ & Ht & _). congruence.
    + destruct H as (_ & Hep & _).
      rewrite <- (length_fmap epoch), Hep in Hlen. discriminate.
Qed.






(** X4. Once [Evaluate Model] is enabled, the simulator is at rest: no
    later click or timer tick changes its state, so the 15 points stay as
    they are and the button stays enabled. *)
Theorem completed_run_is_final (evs evs' : list Event) :
  evaluateEnabled (exec evs initialApp) = true →
  exec (evs ++ evs') initialApp = exec evs initialApp.
Proof.
  intros He. rewrite exec_app. apply finished_exec.
  unfold evaluateEnabled in He.
  destruct (reachable_phase evs) as [[|k|] H]; [| |done]; simpl in H.
  - rewrite H in He. discriminate.
  - destruct H as (_ & Ht & _). rewrite Ht in He. discriminate.
Qed.

Lemma completed_run_is_final_witness :
  evaluateEnabled
    (exec (Click :: replicate 15 (Fire 0 halfDraws)) initialApp) = true ∧
  exec ((Click :: replicate 15 (Fire 0 halfDraws)) ++
          [Click; Fire 0 halfDraws; Fire 1 halfDraws]) initialApp =
    exec (Click :: replicate 15 (Fire 0 halfDraws)) initialApp.
Proof.
  split; [by vm_compute|].
  apply (completed_run_is_final (Click :: replicate 15 (Fire 0 halfDraws))).
  by vm_compute.
Defined.

(** X5. The start button is rendered in the initial state only; in every
    reachable state at most one interval has ever been created, so a page
    runs the simulation at most once. *)
Theorem start_button_only_in_initial_state (evs : list Event) :
  (startButtonRendered (exec evs initialApp) = true ↔
   exec evs initialApp = initialApp) ∧
  (nextTimer (exec evs initialApp) ≤ 1)%nat ∧
  (∀ id : nat, (1 ≤ id)%nat → timers (exec evs initialApp) !! id = None).
Proof.
  unfold startButtonRendered.
  destruct (reachable_phase evs) as [[|k|] H]; simpl in H.
  - rewrite H. simpl. repeat split; try done; try lia.
  - destruct H as (_ & Ht & _ & Hm & Hn). rewrite Ht, Hn, Hm. simpl.
    split; [|split; [lia|]].
    + split; [discriminate|]. intros E. rewrite E in Ht. discriminate.
    + intros id Hid. apply lookup_singleton_ne. lia.
  - destruct H as (Ht & Hep & Hm & Hn).
    rewrite <- (length_fmap epoch), Hep, Ht, Hn, Hm. simpl.
    split; [|split; [lia|]].
    + split; [discriminate|]. intros E. rewrite E in Hn. discriminate.
    + intros id Hid. apply lookup_singleton_ne. lia.
Qed.

End SimulatorStates.

(** *** Further bounds on the points of a series *)

Section SimulatorBounds.
Import Simulator.

(** A property of the series that the empty series has and every tick
    keeps holds after a start, whatever clicks and ticks follow. *)
Lemma series_invariant_exec (I : list TrainingMetric → Prop) :
  I [] →
  (∀ e d l, unit_draws d → I l → I (updater e d l)) →
  ∀ (evs : list Event) (w : App),
    Forall unit_event evs → I (trainingData w) →
    I (trainingData (exec evs w)).
Proof.
  intros Hnil Hupd evs. unfold exec.
  induction evs as [|ev evs IH]; intros w Hevs Hw; simpl; [done|].
  apply Forall_cons in Hevs as [Hev Hevs]. apply IH; [done|].
  destruct ev as [|id d]; simpl.
  - unfold click. by destruct (startButtonRendered w).
  - destruct (fire_data id d w) as [->|[e ->]]; [done|]. by apply Hupd.
Qed.

Lemma no_worse_refl (p : TrainingMetric) : no_worse p p.
Proof. repeat split; apply Qle_refl. Qed.

Lemma no_worse_trans (p q r : TrainingMetric) :
  no_worse p q → no_worse q r → no_worse p r.
Proof.
  intros (A1 & V1 & L1) (A2 & V2 & L2). repeat split.
  - by apply Qle_trans with (accuracy q).
  - by apply Qle_trans with (val_accuracy q).
  - by apply Qle_trans with (loss q).
Qed.

Lemma weakly_improving_throughout (l : list TrainingMetric) :
  weakly_improving l → improving_throughout l.
Proof.
  intros Hl i j p q Hij. replace j with (i + (j - i))%nat by lia.
  generalize (j - i)%nat as n. clear j Hij. intros n. revert q.
  induction n as [|n IH]; intros q Hp Hq.
  - rewrite Nat.add_0_r in Hq. rewrite Hp in Hq. injection Hq as <-.
    apply no_worse_refl.
  - replace (i + S n)%nat with (S (i + n)) in Hq by lia.
    destruct (lookup_lt_is_Some_2 l (i + n)) as [q' Hq'];
      [apply lookup_lt_Some in Hq; lia|].
    apply no_worse_trans with q'; [by apply IH|by apply (Hl (i + n)%nat)].
Qed.

Lemma inject_Z_of_nat_S (n : nat) :
  (inject_Z (Z.of_nat (S n)) == inject_Z (Z.of_nat n) + 1)%Q.
Proof. by rewrite Nat2Z.inj_succ, <- Z.add_1_r, inject_Z_plus. Qed.

Lemma loss_capped_updater (e : Z) (d : Draws) (l : list TrainingMetric) :
  unit_draws d → loss_capped l → loss_capped (updater e d l).
Proof.
  intros Hd [Hb Hc]. split; unfold updater;
    rewrite Forall_app, Forall_singleton; (split; [done|]).
  - by apply newPoint_in_bounds.
  - destruct Hd as (_ & _ & [Ho _]). simpl. unfold newLoss.
    assert (lastLoss l <= 1.2)%Q as Hl.
    { unfold lastLoss. destruct (last l) as [p|] eqn:E; [|lra].
      apply last_Some in E as [l' ->].
      rewrite Forall_app, Forall_singleton in Hc. tauto. }
    apply Q.max_lub; [lra|nra].
Qed.

Lemma last_within_reach (l : list TrainingMetric) :
  all_within_reach l →
  (lastAcc l <= 0.45 + 0.08 * inject_Z (Z.of_nat (length l)))%Q ∧
  (lastValAcc l <= 0.42 + 0.06 * inject_Z (Z.of_nat (length l)))%Q ∧
  (1.2 - 0.15 * inject_Z (Z.of_nat (length l)) <= lastLoss l)%Q.
Proof.
  intros Hl. unfold lastAcc, lastValAcc, lastLoss.
  destruct (last l) as [p|] eqn:E.
  - rewrite last_lookup in E.
    destruct (Hl _ _ E) as (A & V & L).
    assert (S (Nat.pred (length l)) = length l) as Hn.
    { apply lookup_lt_Some in E. lia. }
    rewrite Hn in A, V, L. repeat split; lra.
  - apply last_None in E as ->. change (Z.of_nat (length [])) with 0.
    unfold inject_Z. repeat split; lra.
Qed.

Lemma all_within_reach_updater (e : Z) (d : Draws) (l : list TrainingMetric) :
  unit_draws d → all_within_reach l → all_within_reach (updater e d l).
Proof.
  intros ([_ Ha] & [_ Hv] & [_ Ho]) Hl i p Hi. unfold updater in Hi.
  destruct (decide (i < length l)%nat) as [Hlt|Hge].
  - rewrite lookup_app_l in Hi by done. by apply Hl.
  - assert (i = length l) as ->.
    { apply lookup_lt_Some in Hi. rewrite length_app in Hi. simpl in Hi. lia. }
    rewrite lookup_app_r, Nat.sub_diag in Hi by lia. injection Hi as <-.
    destruct (last_within_reach l Hl) as (A & V & L).
    pose proof (inject_Z_of_nat_S (length l)) as HS.
    unfold within_reach, newPoint, newAcc, newValAcc, newLoss; simpl.
    repeat split.
    + eapply Qle_lt_trans; [apply Q.le_min_r|]. lra.
    + eapply Qle_lt_trans; [apply Q.le_min_r|]. lra.
    + eapply Qlt_le_trans; [|apply Q.le_max_r]. lra.
Qed.

Lemma highDraws_unit : unit_draws highDraws.
Proof. repeat split; vm_compute; (reflexivity || discriminate). Qed.

Lemma unit_event_ticks (n : nat) (id : nat) (d : Draws) :
  unit_draws d → Forall unit_event (replicate n (Fire id d)).
Proof. intros Hd. by apply Forall_replicate. Qed.

Lemma loss_capped_exec (N : Z) (w : App) (evs : list Event) :
  Forall unit_event evs →
  loss_capped (trainingData (exec evs (startRun N w))).
Proof.
  intros Hevs.
  apply (series_invariant_exec loss_capped);
    [by split|apply loss_capped_updater|done|by split].
Qed.

Lemma all_within_reach_exec (N : Z) (w : App) (evs : list Event) :
  Forall unit_event evs →
  all_within_reach (trainingData (exec evs (startRun N w))).
Proof.
  intros Hevs.
  assert (all_within_reach []) as Hnil
    by (intros i p Hi; by rewrite lookup_nil in Hi).
  apply (series_invariant_exec all_within_reach);
    [done|apply all_within_reach_updater|done|done].
Qed.

Lemma improving_throughout_exec (N : Z) (w : App) (evs : list Event) :
  Forall unit_event evs →
  improving_throughout (trainingData (exec evs (startRun N w))).
Proof.
  intros Hevs. apply weakly_improving_throughout.
  apply (sound_series_exec evs (startRun N w) Hevs sound_series_nil).
Qed.

(** X6. Whatever the draws in [0, 1), every point of the series after a
    start has loss <= 1.2 and 0.11 <= val_loss <= 1.32, and its val_loss
    is greater than its loss. *)
Theorem emitted_losses_in_bounds (N : Z) (w : App) (evs : list Event) :
  Forall unit_event evs →
  Forall in_loss_bounds (trainingData (exec evs (startRun N w))).
Proof.
  intros Hevs. destruct (loss_capped_exec N w evs Hevs) as [Hb Hc].
  rewrite Forall_lookup in Hb, Hc. apply Forall_lookup. intros i p Hi.
  destruct (Hb i p Hi) as (_ & _ & _ & _ & Hlo & Hv).
  pose proof (Hc i p Hi) as Hhi. simpl in Hhi.
  unfold in_loss_bounds. rewrite Hv. repeat split; lra.
Qed.

Lemma emitted_losses_in_bounds_witness :
  Forall unit_event (replicate 10 (Fire 0 highDraws)) ∧
  Forall in_loss_bounds
    (trainingData
       (exec (replicate 10 (Fire 0 highDraws)) (startRun 15 initialApp))).
Proof.
  split; [apply unit_event_ticks, highDraws_unit|].
  apply (emitted_losses_in_bounds 15 initialApp),
    unit_event_ticks, highDraws_unit.
Defined.

(** X8. Whatever the draws in [0, 1), in the series after a start the
    accuracy is at its ceiling 0.98 at the 7th point at the earliest, the
    val_accuracy at its ceiling 0.95 at the 9th, and the loss at its floor
    0.1 at the 8th. *)
Theorem plateau_not_before (N : Z) (w : App) (evs : list Event)
    (i : nat) (p : TrainingMetric) :
  Forall unit_event evs →
  trainingData (exec evs (startRun N w)) !! i = Some p →
  (at_accuracy_ceiling p → (6 ≤ i)%nat) ∧
  (at_val_accuracy_ceiling p → (8 ≤ i)%nat) ∧
  (at_loss_floor p → (7 ≤ i)%nat).
Proof.
  intros Hevs Hi.
  destruct (all_within_reach_exec N w evs Hevs i p Hi) as (A & V & L).
  unfold at_accuracy_ceiling, at_val_accuracy_ceiling, at_loss_floor.
  repeat split; intros E.
  - destruct (decide (6 ≤ i)%nat) as [|Hn]; [done|exfalso].
    assert (inject_Z (Z.of_nat (S i)) <= inject_Z 6)%Q as Hq
      by (rewrite <- Zle_Qle; lia).
    unfold inject_Z at 2 in Hq. lra.
  - destruct (decide (8 ≤ i)%nat) as [|Hn]; [done|exfalso].
    assert (inject_Z (Z.of_nat (S i)) <= inject_Z 8)%Q as Hq
      by (rewrite <- Zle_Qle; lia).
    unfold inject_Z at 2 in Hq. lra.
  - destruct (decide (7 ≤ i)%nat) as [|Hn]; [done|exfalso].
    assert (inject_Z (Z.of_nat (S i)) <= inject_Z 7)%Q as Hq
      by (rewrite <- Zle_Qle; lia).
    unfold inject_Z at 2 in Hq. lra.
Qed.

Lemma plateau_not_before_witness :
  Forall unit_event (replicate 7 (Fire 0 highDraws)) ∧
  trainingData
    (exec (replicate 7 (Fire 0 highDraws)) (startRun 15 initialApp))
    !! 6%nat =
    Some (default seedPoint
            (trainingData
               (exec (replicate 7 (Fire 0 highDraws))
                  (startRun 15 initialApp)) !! 6%nat)) ∧
  at_accuracy_ceiling
    (default seedPoint
       (trainingData
          (exec (replicate 7 (Fire 0 highDraws)) (startRun 15 initialApp))
          !! 6%nat)) ∧
  (6 ≤ 6)%nat.
Proof.
  split; [apply unit_event_ticks, highDraws_unit|].
  split; [by vm_compute|].
  split; [by vm_compute|].
  apply (plateau_not_before 15 initialApp (replicate 7 (Fire 0 highDraws)) 6
           (default seedPoint
              (trainingData
                 (exec (replicate 7 (Fire 0 highDraws))
                    (startRun 15 initialApp)) !! 6%nat)));
    [apply unit_event_ticks, highDraws_unit|by vm_compute|by vm_compute].
Defined.

(** X9. Whatever the draws in [0, 1), in the series after a start every
    point is no worse than every earlier point, so the last point has the
    highest accuracy and val_accuracy and the lowest loss of the series. *)
Theorem last_point_is_best (N : Z) (w : App) (evs : list Event) :
  Forall unit_event evs →
  improving_throughout (trainingData (exec evs (startRun N w))) ∧
  (∀ (q : TrainingMetric),
      last (trainingData (exec evs (startRun N w))) = Some q →
      ∀ (i : nat) (p : TrainingMetric),
        trainingData (exec evs (startRun N w)) !! i = Some p →
        no_worse p q).
Proof.
  intros Hevs. pose proof (improving_throughout_exec N w evs Hevs) as H.
  split; [done|]. intros q Hq i p Hi. rewrite last_lookup in Hq.
  eapply (H i); [|done|exact Hq].
  apply lookup_lt_Some in Hi. lia.
Qed.

Lemma last_point_is_best_witness :
  Forall unit_event (replicate 5 (Fire 0 halfDraws)) ∧
  improving_throughout
    (trainingData
       (exec (replicate 5 (Fire 0 halfDraws)) (startRun 15 initialApp))).
Proof.
  split; [apply unit_event_ticks, halfDraws_unit|].
  apply (last_point_is_best 15 initialApp),
    unit_event_ticks, halfDraws_unit.
Defined.

(** X10. Whatever the draws in [0, 1), in the series after a start a value
    that has reached its ceiling (accuracy 0.98, val_accuracy 0.95) or its
    floor (loss 0.1) keeps it in every later point. *)
Theorem plateau_is_kept (N : Z) (w : App) (evs : list Event)
    (i j : nat) (p q : TrainingMetric) :
  Forall unit_event evs → (i ≤ j)%nat →
  trainingData (exec evs (startRun N w)) !! i = Some p →
  trainingData (exec evs (startRun N w)) !! j = Some q →
  (at_accuracy_ceiling p → at_accuracy_ceiling q) ∧
  (at_val_accuracy_ceiling p → at_val_accuracy_ceiling q) ∧
  (at_loss_floor p → at_loss_floor q).
Proof.
  intros Hevs Hij Hi Hj.
  destruct (improving_throughout_exec N w evs Hevs i j p q Hij Hi Hj)
    as (A & V & L).
  destruct (loss_capped_exec N w evs Hevs) as [Hb _].
  rewrite Forall_lookup in Hb.
  destruct (Hb j q Hj) as (_ & A' & _ & V' & L' & _).
  unfold at_accuracy_ceiling, at_val_accuracy_ceiling, at_loss_floor.
  repeat split; intros E; apply Qle_antisym; lra.
Qed.

Lemma plateau_is_kept_witness :
  Forall unit_event (replicate 9 (Fire 0 highDraws)) ∧ (6 ≤ 8)%nat ∧
  at_accuracy_ceiling
    (default seedPoint
       (trainingData
          (exec (replicate 9 (Fire 0 highDraws)) (startRun 15 initialApp))
          !! 6%nat)) ∧
  at_accuracy_ceiling
    (default seedPoint
       (trainingData
          (exec (replicate 9 (Fire 0 highDraws)) (startRun 15 initialApp))
          !! 8%nat)).
Proof.
  assert (Forall unit_event (replicate 9 (Fire 0 highDraws))) as Hev
    by apply unit_event_ticks, highDraws_unit.
  assert (at_accuracy_ceiling
            (default seedPoint
               (trainingData
                  (exec (replicate 9 (Fire 0 highDraws))
                     (startRun 15 initialApp)) !! 6%nat))) as Hp
    by (by vm_compute).
  split; [exact Hev|]. split; [lia|]. split; [exact Hp|].
  refine (proj1 (plateau_is_kept 15 initialApp
                   (replicate 9 (Fire 0 highDraws)) 6 8 _ _ Hev _ _ _) Hp).
  - lia.
  - by vm_compute.
  - by vm_compute.
Defined.

End SimulatorBounds.

(** ** Properties of the wizard *)

Section WizardSteps.
Import Wizard.

(** *** [indexOf] and the steps *)

Lemma indexOf_range {A : Type} `{EqDecision A} (x : A) (l : list A) :
  -1 ≤ indexOf x l < Z.of_nat (length l).
Proof.
  induction l as [|y l IH]; simpl; [lia|].
  case_decide; [lia|]. destruct (indexOf x l <? 0) eqn:E; [lia|].
  apply Z.ltb_ge in E. lia.
Qed.

Lemma indexOf_lookup {A : Type} `{EqDecision A} (x : A) (l : list A) :
  0 ≤ indexOf x l → at_index l (indexOf x l) = Some x.
Proof.
  unfold at_index. induction l as [|y l IH]; simpl; [lia|].
  case_decide as E; [by subst|].
  destruct (indexOf x l <? 0) eqn:E'; [lia|]. intros _.
  apply Z.ltb_ge in E'. specialize (IH E').
  replace (indexOf x l <? 0) with false in IH by (symmetry; by apply Z.ltb_ge).
  replace (indexOf x l + 1 <? 0) with false by (symmetry; apply Z.ltb_ge; lia).
  by replace (Z.to_nat (indexOf x l + 1)) with (S (Z.to_nat (indexOf x l)))
    by lia.
Qed.

Lemma indexOf_absent {A : Type} `{EqDecision A} (x : A) (l : list A) :
  indexOf x l = -1 ↔ x ∉ l.
Proof.
  induction l as [|y l IH]; simpl.
  - split; [intros _; apply not_elem_of_nil|done].
  - rewrite not_elem_of_cons. case_decide as E.
    + split; [lia|]. by intros [? _].
    + pose proof (indexOf_range x l) as Hr.
      destruct (indexOf x l <? 0) eqn:E'.
      * apply Z.ltb_lt in E'. split; [|done]. intros _. split; [done|].
        apply IH. lia.
      * apply Z.ltb_ge in E'. split; [lia|]. intros [_ Hx].
        apply IH in Hx. lia.
Qed.

Lemma indexOf_steps (s : ProjectStep) : 0 ≤ indexOf s steps ≤ 6.
Proof. destruct s; vm_compute; split; discriminate. Qed.

Lemma indexOf_stepAfterNext (s : ProjectStep) :
  indexOf (stepAfterNext s s) steps = Z.min (indexOf s steps + 1) 6.
Proof. by destruct s. Qed.

Lemma indexOf_stepAfterPrev (s : ProjectStep) :
  indexOf (stepAfterPrev s s) steps = Z.max (indexOf s steps - 1) 0.
Proof. by destruct s. Qed.

(** X11. [prevStep] undoes [nextStep] at every step but the last, and
    [nextStep] undoes [prevStep] at every step but the first; at the last
    step [nextStep] changes nothing, and at the first [prevStep] changes
    nothing. *)
Theorem next_prev_round_trip (s : ProjectStep) :
  (s ≠ SUMMARY →
   stepAfterPrev (stepAfterNext s s) (stepAfterNext s s) = s) ∧
  (s ≠ INTRO →
   stepAfterNext (stepAfterPrev s s) (stepAfterPrev s s) = s) ∧
  (s = SUMMARY → stepAfterNext s s = s) ∧
  (s = INTRO → stepAfterPrev s s = s).
Proof. destruct s; repeat split; (done || by intros ->). Qed.

(** X12. [nextStep] and [prevStep] move the index of the step among
    [Object.values(ProjectStep)] by exactly one, within 0..6, and the
    element they read from the array is never [undefined]; from the first
    step, [n] times [nextStep] lead to the step of index min(n, 6). *)
Theorem step_index_moves_by_one (s : ProjectStep) (n : nat) :
  indexOf (stepAfterNext s s) steps = Z.min (indexOf s steps + 1) 6 ∧
  indexOf (stepAfterPrev s s) steps = Z.max (indexOf s steps - 1) 0 ∧
  nextStepTarget s ≠ Some None ∧
  prevStepTarget s ≠ Some None ∧
  indexOf (Nat.iter n (λ s, stepAfterNext s s) INTRO) steps
    = Z.min (Z.of_nat n) 6.
Proof.
  split; [apply indexOf_stepAfterNext|].
  split; [apply indexOf_stepAfterPrev|].
  split; [by destruct s|]. split; [by destruct s|].
  induction n as [|n IH]; [done|].
  rewrite Nat.iter_succ, indexOf_stepAfterNext, IH. lia.
Qed.

(** X13. [StepIndicator] draws the steps before the current one as
    completed, the current one as active and the steps after it as
    upcoming: exactly one circle is active, and the completed ones are as
    many as the index of the current step. *)
Theorem indicator_shape (current : ProjectStep) :
  indicator current =
    replicate (Z.to_nat (indexOf current steps)) Completed ++ [Active] ++
    replicate (6 - Z.to_nat (indexOf current steps)) Upcoming.
Proof. by destruct current. Qed.

End WizardSteps.

Section WizardInvariant.
Import Wizard.
Context {Cause : Type}.
Variable rt : Gateway.Runtime Cause.
Implicit Types (w : State (Cause:=Cause)) (ev : Event).

(** *** The gateway in two halves *)

Lemma analyzeClassification_two_halves
    (imageData dataset architecture : string) (tr : Gateway.Trace Cause) :
  Gateway.analyzeClassification rt imageData dataset architecture tr =
  classificationAfter rt
    (sendRequest rt (Gateway.getAI rt)
       (Gateway.classificationRequest imageData dataset architecture) tr).1
    (sendRequest rt (Gateway.getAI rt)
       (Gateway.classificationRequest imageData dataset architecture) tr).2.
Proof.
  unfold Gateway.analyzeClassification, classificationAfter, sendRequest,
    Gateway.tryCatch, Gateway.await, Gateway.models_generateContent,
    settleRequest; simpl.
  by destruct (Gateway.generateContent rt _ _ _).
Qed.

Lemma generateFinalReport_two_halves
    (summary : string) (tr : Gateway.Trace Cause) :
  Gateway.generateFinalReport rt summary tr =
  reportAfter
    (sendRequest rt (Gateway.getAI rt) (Gateway.reportRequest summary) tr).1
    (sendRequest rt (Gateway.getAI rt) (Gateway.reportRequest summary) tr).2.
Proof.
  unfold Gateway.generateFinalReport, reportAfter, sendRequest,
    Gateway.await, Gateway.models_generateContent, settleRequest; simpl.
  by destruct (Gateway.generateContent rt _ _ _).
Qed.

(** Once the service has answered, no request is sent any more. *)
Lemma classificationAfter_requests (res : Gateway.ServiceResult Cause)
    (tr : Gateway.Trace Cause) :
  Gateway.requests (classificationAfter rt res tr).2 = Gateway.requests tr.
Proof.
  unfold classificationAfter, Gateway.tryCatch, Gateway.await, settleRequest,
    Gateway.parseJSON, Gateway.resolve, Gateway.throw.
  destruct res as [r|c]; simpl; [|done].
  by destruct (Gateway.JSON_parse rt (Gateway.text r)).
Qed.

Lemma reportAfter_trace (res : Gateway.ServiceResult Cause)
    (tr : Gateway.Trace Cause) :
  (reportAfter res tr).2 = tr.
Proof. by destruct res. Qed.

(** *** The steps and the run *)

Lemma evaluateEnabled_finished (ph : Simulator.Phase) (a : Simulator.App) :
  Simulator.inPhase ph a → Simulator.evaluateEnabled a = true →
  Simulator.inPhase Simulator.Finished a.
Proof.
  unfold Simulator.evaluateEnabled. destruct ph as [|k|]; simpl; [| |done].
  - intros ->. discriminate.
  - intros (_ & Ht & _). rewrite Ht. discriminate.
Qed.

Lemma truthy_Some (s : option string) :
  truthy s = true → ∃ image, s = Some image ∧ image ≠ EmptyString.
Proof.
  destruct s as [image|]; simpl; [|discriminate]. intros H.
  exists image. split; [done|]. intros ->. discriminate.
Qed.

Lemma stepAfterNext_late (s : ProjectStep) :
  stepAfterNext s s = EVALUATION ∨ stepAfterNext s s = SUMMARY →
  s = TRAINING ∨ s = EVALUATION ∨ s = SUMMARY.
Proof. destruct s; intros [H|H]; try discriminate H; auto. Qed.

Lemma stepAfterPrev_late (s : ProjectStep) :
  stepAfterPrev s s = EVALUATION ∨ stepAfterPrev s s = SUMMARY →
  s = SUMMARY.
Proof. destruct s; intros [H|H]; try discriminate H; auto. Qed.

Lemma stepAfterNext_summary (now : ProjectStep) :
  stepAfterNext SUMMARY now = now.
Proof. done. Qed.

Lemma classificationAfter_fulfilled (res : Gateway.ServiceResult Cause)
    (tr tr' : Gateway.Trace Cause) (v : Gateway.json) :
  classificationAfter rt res tr = (Gateway.Fulfilled v, tr') →
  ∃ r, res = Gateway.Resolves r ∧
       Gateway.JSON_parse rt (Gateway.text r) = Some v.
Proof.
  unfold classificationAfter, Gateway.tryCatch, Gateway.await, settleRequest,
    Gateway.parseJSON, Gateway.resolve, Gateway.throw.
  destruct res as [r|c]; simpl; [|discriminate].
  destruct (Gateway.JSON_parse rt (Gateway.text r)) as [v'|] eqn:E; simpl;
    [|discriminate].
  intros [= -> _]. by exists r.
Qed.

Lemma parsedResponse_app (sent more : list Gateway.Request)
    (v : Gateway.json) :
  parsedResponse rt sent v → parsedResponse rt (sent ++ more) v.
Proof.
  intros (n & req & r & Hl & Hc & Hr & Hv). exists n, req, r.
  split; [by apply lookup_app_l_Some|done].
Qed.

Lemma single_call (l : list (Pending (Cause:=Cause))) (i : nat) (c : Pending) :
  (length l ≤ 1)%nat → l !! i = Some c → l = [c] ∧ remove_at i l = [].
Proof.
  destruct l as [|c' [|c'' l]]; simpl; intros Hlen Hi; try lia.
  - by rewrite lookup_nil in Hi.
  - destruct i as [|i]; simpl in Hi; [|by rewrite lookup_nil in Hi].
    by injection Hi as ->.
Qed.

Ltac split_invariant :=
  unfold invariant; simpl;
  split; [|split; [|split; [|split; [|split; [|split; [|split]]]]]].

Lemma invariant_initial : invariant rt initialState.
Proof.
  split_invariant; try done.
  - lia.
  - by exists Simulator.Idle.
  - intros [H|H]; discriminate H.
Qed.

Lemma invariant_handle w ev : invariant rt w → invariant rt (handle rt w ev).
Proof.
  intros Hinv.
  pose proof Hinv as (HL & Hlen & Han & Hcalls & Hph & Hfin & Hpred & Hreq).
  destruct ev as [| |d| | |id d|hasFile|result| | |s| |i|]; simpl.
  - (* forward *)
    destruct (nextEnabled w) eqn:E; [|done].
    split_invariant; try done.
    intros Hs. apply stepAfterNext_late in Hs as [Hs|[Hs|Hs]].
    + unfold nextEnabled in E. rewrite Hs in E.
      destruct Hph as [ph Hph]. by apply (evaluateEnabled_finished ph).
    + apply Hfin. by left.
    + apply Hfin. by right.
  - (* back *)
    destruct (backRendered w); [|done].
    split_invariant; try done.
    intros Hs. apply stepAfterPrev_late in Hs. apply Hfin. by right.
  - case_bool_decide; [|done]. by split_invariant.
  - case_bool_decide; [|done]. by split_invariant.
  - (* the start button *)
    case_bool_decide as Es; [|done].
    split_invariant; try done.
    + destruct Hph as [ph Hph].
      apply (inPhase_step ph _ Simulator.Click Hph).
    + rewrite Es. intros [H|H]; discriminate H.
  - (* a tick *)
    split_invariant; try done.
    + destruct Hph as [ph Hph].
      apply (inPhase_step ph _ (Simulator.Fire id d) Hph).
    + intros Hs.
      change (Simulator.fire id d (training w))
        with (Simulator.step (training w) (Simulator.Fire id d)).
      rewrite (finished_step _ (Simulator.Fire id d) (Hfin Hs)).
      by apply Hfin.
  - destruct (bool_decide (step w = EVALUATION) && negb (truthy (testImage w)));
      [|done].
    unfold handleImageUpload. destruct hasFile; [|done]. by split_invariant.
  - destruct (0 <? reading w)%nat; [|done]. by split_invariant.
  - destruct (bool_decide (step w = EVALUATION) && truthy (testImage w));
      [|done].
    by split_invariant.
  - (* a prediction is asked for *)
    destruct (predictEnabled w) eqn:E; [|done].
    unfold predictEnabled in E.
    apply andb_prop in E as [Es E]. apply bool_decide_eq_true in Es.
    apply negb_true_iff, orb_false_iff in E as [Ht Ha].
    apply negb_false_iff in Ht.
    destruct (truthy_Some _ Ht) as (image & Hi & Hne).
    unfold handlePredict_call. rewrite Hi. rewrite Hi in Ht. rewrite Ht.
    assert (inflight w = []) as Hnone.
    { destruct (inflight w) as [|c l] eqn:El; [done|].
      assert (isAnalyzing w = true) by (by apply Han). congruence. }
    split_invariant; try done.
    + rewrite Hnone. simpl. lia.
    + rewrite Hnone. done.
    + rewrite Hnone. simpl. apply Forall_singleton.
      eexists (length (Gateway.requests (trace w))), _.
      split; [by apply list_lookup_middle|]. split; [done|].
      by eexists _, _, _.
    + intros v Hv. by apply parsedResponse_app, Hpred.
    + apply Forall_app. split; [done|]. apply Forall_singleton.
      left. exists image, (dataset w). by rewrite HL.
  - case_bool_decide; [|done]. by split_invariant.
  - (* a report is asked for *)
    destruct (generateEnabled w) eqn:E; [|done].
    unfold generateEnabled in E.
    apply andb_prop in E as [Es E]. apply bool_decide_eq_true in Es.
    apply negb_true_iff, orb_false_iff in E as [Ht Ha].
    assert (inflight w = []) as Hnone.
    { destruct (inflight w) as [|c l] eqn:El; [done|].
      assert (isAnalyzing w = true) by (by apply Han). congruence. }
    unfold handleGenerateReport_call.
    split_invariant; try done.
    + rewrite Hnone. simpl. lia.
    + rewrite Hnone. done.
    + rewrite Hnone. simpl. apply Forall_singleton.
      eexists (length (Gateway.requests (trace w))), _.
      split; [by apply list_lookup_middle|done].
    + intros v Hv. by apply parsedResponse_app, Hpred.
    + apply Forall_app. split; [done|]. apply Forall_singleton.
      right. exists (summaryText w). split; [|done].
      intros Hs. rewrite Hs in Ht. discriminate.
  - (* a call settles *)
    destruct (inflight w !! i) as [c|] eqn:Ei; [|done].
    destruct (single_call _ _ _ Hlen Ei) as [Hone Hrem].
    rewrite Hone, Forall_singleton in Hcalls. unfold goodCall in Hcalls.
    destruct c as [res|res closureStep];
      destruct Hcalls as (n & req & Hsent & Hres & Hstep);
      simpl in Hres, Hstep.
    + unfold handlePredict_settled. simpl.
      pose proof (classificationAfter_requests res (trace w)) as Hrq.
      destruct (classificationAfter rt res (trace w)) as [outcome tr] eqn:Ec.
      simpl in Hrq. rewrite Hrem.
      destruct outcome as [v|e]; split_invariant; try done;
        try (by rewrite Hrq); try lia.
      intros v' [= <-].
      destruct (classificationAfter_fulfilled _ _ _ _ Ec) as (r & -> & Hv).
      rewrite Hrq. by exists n, req, r.
    + unfold handleGenerateReport_settled. simpl.
      pose proof (reportAfter_trace res (trace w)) as Htr.
      destruct (reportAfter res (trace w)) as [outcome tr] eqn:Ec.
      simpl in Htr. subst tr closureStep. rewrite Hrem.
      destruct outcome as [report|e]; split_invariant; try done; lia.
  - (* the page is loaded again *)
    case_bool_decide; [|done].
    split_invariant; try done.
    + lia.
    + by exists Simulator.Idle.
    + intros [Hs|Hs]; discriminate Hs.
Qed.

Lemma invariant_play (evs : list Event) w :
  invariant rt w → invariant rt (play rt evs w).
Proof.
  unfold play. revert w.
  induction evs as [|ev evs IH]; intros w Hw; simpl; [done|].
  by apply IH, invariant_handle.
Qed.

Lemma invariant_reachable (evs : list Event) :
  invariant rt (play rt evs initialState).
Proof. apply invariant_play, invariant_initial. Qed.

End WizardInvariant.

(** *** What holds in every state of the wizard *)

Section WizardFacts.
Import Wizard.
Context {Cause : Type}.
Variable rt : Gateway.Runtime Cause.

(** X14. In every state the wizard reaches, at most one call of the
    gateway is in flight, and [isAnalyzing] is true exactly while one is:
    the buttons [Run Prediction] and [Generate AI Learning Report] are
    enabled only when none is. *)
Theorem one_call_in_flight (evs : list Event) :
  (length (inflight (play rt evs initialState)) ≤ 1)%nat ∧
  (isAnalyzing (play rt evs initialState) = true ↔
   inflight (play rt evs initialState) ≠ []) ∧
  (predictEnabled (play rt evs initialState) = true ∨
   generateEnabled (play rt evs initialState) = true →
   inflight (play rt evs initialState) = []).
Proof.
  destruct (invariant_reachable rt evs) as (_ & Hlen & Han & _).
  split; [done|]. split; [done|].
  assert (isAnalyzing (play rt evs initialState) = false →
          inflight (play rt evs initialState) = []) as Hidle.
  { intros Hf. destruct (inflight _) as [|c l]; [done|].
    assert (isAnalyzing (play rt evs initialState) = true) by (by apply Han).
    congruence. }
  unfold predictEnabled, generateEnabled.
  intros [[_ E]%andb_prop|[_ E]%andb_prop];
    apply negb_true_iff, orb_false_iff in E as [_ E]; by apply Hidle.
Qed.


(** X16. The layers never change: in every state the wizard reaches they
    are [INITIAL_LAYERS]. Every request the wizard has sent is either a
    classification of a non-empty image, for one of the four datasets,
    with the architecture text of those layers, or a report on a non-empty
    reflection. *)
Theorem requests_of_the_wizard (evs : list Event) :
  layers (play rt evs initialState) = INITIAL_LAYERS ∧
  Forall wizardRequest
    (Gateway.requests (trace (play rt evs initialState))) ∧
  archSummary INITIAL_LAYERS =
    "Conv2D -> MaxPooling2D -> Conv2D -> MaxPooling2D -> Flatten -> Dense -> Dropout -> Dense"%string.
Proof.
  destruct (invariant_reachable rt evs) as (HL & _ & _ & _ & _ & _ & _ & Hreq).
  by repeat split.
Qed.

(** X17. When a call of the gateway settles the step stays what it is: the
    [nextStep()] of [handleGenerateReport] runs in a render of the last
    step and changes nothing. *)
Theorem settling_keeps_the_step (evs : list Event) (i : nat) :
  step (handle rt (play rt evs initialState) (CallSettles i)) =
  step (play rt evs initialState).
Proof.
  destruct (invariant_reachable rt evs) as (_ & Hlen & _ & Hcalls & _).
  set (w := play rt evs initialState) in *. simpl.
  destruct (inflight w !! i) as [c|] eqn:Ei; [|done].
  destruct (single_call _ _ _ Hlen Ei) as [Hone _].
  rewrite Hone, Forall_singleton in Hcalls. unfold goodCall in Hcalls.
  destruct c as [res|res closureStep];
    destruct Hcalls as (n & req & _ & _ & Hstep).
  - unfold handlePredict_settled. simpl.
    destruct (classificationAfter rt res (trace w)) as [[v|e] tr]; done.
  - unfold handleGenerateReport_settled. simpl. subst closureStep.
    destruct (reportAfter res (trace w)) as [[report|e] tr]; done.
Qed.

(** X18. A prediction the wizard shows is the parsed text of a response of
    the service to a classification request the wizard has sent: one of
    the requests of the trace, the one number [n], is a classification
    request, the call number [n] of [generateContent] sent it and resolved
    with a response whose text [JSON.parse] turns into the prediction. *)
Theorem prediction_is_a_parsed_response (evs : list Event) (v : Gateway.json) :
  prediction (play rt evs initialState) = Some v →
  parsedResponse rt
    (Gateway.requests (trace (play rt evs initialState))) v.
Proof.
  destruct (invariant_reachable rt evs) as (_ & _ & _ & _ & _ & _ & Hp & _).
  apply Hp.
Qed.

(** X19. When the call of a prediction fails, because the service rejects
    it or because the text of its response is not JSON, the handler keeps
    the prediction shown before, alerts the user with one fixed message,
    and sets [isAnalyzing] back to false; the gateway has written the
    error on the console. When the call of a report fails, the handler
    keeps the report and the step, alerts with its own fixed message and
    sets [isAnalyzing] back to false; nothing is written on the console. *)
Theorem failed_calls_keep_the_results
    (w : State) (res : Gateway.ServiceResult Cause) (closureStep : ProjectStep) :
  (∀ r, res = Gateway.Resolves r →
        Gateway.JSON_parse rt (Gateway.text r) = None) →
  (prediction (handlePredict_settled rt res w) = prediction w ∧
   alerts (handlePredict_settled rt res w) =
     alerts w ++ ["Error analyzing image. Please check your API key."%string] ∧
   isAnalyzing (handlePredict_settled rt res w) = false ∧
   Gateway.console (trace (handlePredict_settled rt res w)) =
     Gateway.console (trace w) ++
       [("Gemini Classification Error:"%string,
         match res with
         | Gateway.Rejects c => Gateway.ServiceFailure c
         | Gateway.Resolves _ => Gateway.JsonSyntaxError
         end)]) ∧
  (∀ c, res = Gateway.Rejects c →
   finalReport (handleGenerateReport_settled res closureStep w)
     = finalReport w ∧
   step (handleGenerateReport_settled res closureStep w) = step w ∧
   alerts (handleGenerateReport_settled res closureStep w) =
     alerts w ++ ["Error generating report."%string] ∧
   isAnalyzing (handleGenerateReport_settled res closureStep w) = false ∧
   trace (handleGenerateReport_settled res closureStep w) = trace w).
Proof.
  intros Hparse. split.
  - unfold handlePredict_settled, classificationAfter, Gateway.tryCatch,
      Gateway.await, settleRequest, Gateway.parseJSON, Gateway.resolve,
      Gateway.throw, Gateway.console_error.
    destruct res as [r|c]; simpl; [|done].
    by rewrite (Hparse r eq_refl).
  - by intros c ->.
Qed.

End WizardFacts.

(** *** The wizard and the gateway against mocked services *)

Section WizardExamples.
Import Wizard.

(** A whole session: the run, a prediction and a report. Two requests have
    left, the prediction and the report are the service's, the wizard is
    at the last step and nothing is in flight. *)
Lemma report_session_example :
  step (play (Gateway.mockRuntime
                (Gateway.Resolves (Gateway.mkResponse Gateway.catText)))
          reportSession initialState) = SUMMARY ∧
  prediction (play (Gateway.mockRuntime
                      (Gateway.Resolves (Gateway.mkResponse Gateway.catText)))
                reportSession initialState) = Some Gateway.catValue ∧
  finalReport (play (Gateway.mockRuntime
                       (Gateway.Resolves (Gateway.mkResponse Gateway.catText)))
                 reportSession initialState) = Gateway.catText ∧
  length (Gateway.requests
            (trace (play (Gateway.mockRuntime
                            (Gateway.Resolves
                               (Gateway.mkResponse Gateway.catText)))
                      reportSession initialState))) = 2%nat ∧
  inflight (play (Gateway.mockRuntime
                    (Gateway.Resolves (Gateway.mkResponse Gateway.catText)))
              reportSession initialState) = [].
Proof. by vm_compute. Qed.


Lemma prediction_is_a_parsed_response_witness :
  prediction (play (Gateway.mockRuntime
                      (Gateway.Resolves (Gateway.mkResponse Gateway.catText)))
                predictionSession initialState) = Some Gateway.catValue ∧
  parsedResponse
    (Gateway.mockRuntime
       (Gateway.Resolves (Gateway.mkResponse Gateway.catText)))
    (Gateway.requests
       (trace (play (Gateway.mockRuntime
                       (Gateway.Resolves (Gateway.mkResponse Gateway.catText)))
                 predictionSession initialState)))
    Gateway.catValue.
Proof.
  assert (prediction
            (play (Gateway.mockRuntime
                     (Gateway.Resolves (Gateway.mkResponse Gateway.catText)))
               predictionSession initialState) = Some Gateway.catValue) as Hp
    by (by vm_compute).
  split; [exact Hp|].
  exact (prediction_is_a_parsed_response
           (Gateway.mockRuntime
              (Gateway.Resolves (Gateway.mkResponse Gateway.catText)))
           predictionSession Gateway.catValue Hp).
Defined.

Lemma failed_calls_keep_the_results_witness :
  (∀ r, Gateway.Resolves (Cause:=string) (Gateway.mkResponse "not json")
          = Gateway.Resolves r →
        Gateway.JSON_parse
          (Gateway.mockRuntime
             (Gateway.Resolves (Gateway.mkResponse "not json")))
          (Gateway.text r) = None) ∧
  prediction
    (handlePredict_settled
       (Gateway.mockRuntime
          (Gateway.Resolves (Gateway.mkResponse "not json")))
       (Gateway.Resolves (Gateway.mkResponse "not json"))
       (setPrediction (Some Gateway.catValue) initialState))
    = Some Gateway.catValue ∧
  alerts
    (handlePredict_settled
       (Gateway.mockRuntime
          (Gateway.Resolves (Gateway.mkResponse "not json")))
       (Gateway.Resolves (Gateway.mkResponse "not json"))
       (setPrediction (Some Gateway.catValue) initialState))
    = ["Error analyzing image. Please check your API key."%string].
Proof.
  assert (∀ r,
            Gateway.Resolves (Cause:=string) (Gateway.mkResponse "not json")
              = Gateway.Resolves r →
            Gateway.JSON_parse
              (Gateway.mockRuntime
                 (Gateway.Resolves (Gateway.mkResponse "not json")))
              (Gateway.text r) = None) as Hparse
    by (intros r [= <-]; by vm_compute).
  split; [exact Hparse|].
  destruct (failed_calls_keep_the_results
              (Gateway.mockRuntime
                 (Gateway.Resolves (Gateway.mkResponse "not json")))
              (setPrediction (Some Gateway.catValue) initialState)
              (Gateway.Resolves (Gateway.mkResponse "not json")) SUMMARY
              Hparse) as [(H1 & H2 & _) _].
  split; [exact H1|exact H2].
Defined.

End WizardExamples.

(** ** Further properties of the gateway *)

Section GatewayRequests.
Import Gateway.

Lemma split_without (c : ascii) (s : string) :
  Wizard.occurs c s = false → split c s = [s].
Proof.
  induction s as [|a s IH]; simpl; [done|].
  intros [Ha Hs]%orb_false_iff. rewrite Ha. by rewrite (IH Hs).
Qed.

Lemma split_at_first (c : ascii) (h rest : string) :
  Wizard.occurs c h = false →
  split c (h +:+ String c rest) = h :: split c rest.
Proof.
  induction h as [|a h IH]; simpl.
  - intros _. by rewrite Ascii.eqb_refl.
  - intros [Ha Hh]%orb_false_iff. rewrite Ha. by rewrite (IH Hh).
Qed.

(** X20. The image data [analyzeClassification] attaches is what stands
    between the first and the second comma of [imageData]: for a data URL
    [header,payload] it is the payload; when [imageData] holds no comma
    there is none ([undefined]), and the request is built all the same. *)
Theorem inline_data_of_request
    (header payload imageData dataset architecture : string) :
  Wizard.occurs "," header = false →
  Wizard.occurs "," payload = false →
  Wizard.occurs "," imageData = false →
  contents
    (classificationRequest (header +:+ "," +:+ payload) dataset architecture) =
    PartsContents
      [TextPart (classificationPrompt dataset architecture);
       InlineDataPart "image/jpeg" (Some payload)] ∧
  contents (classificationRequest imageData dataset architecture) =
    PartsContents
      [TextPart (classificationPrompt dataset architecture);
       InlineDataPart "image/jpeg" None].
Proof.
  intros Hh Hp Hi. unfold classificationRequest; simpl. split.
  - change ("," +:+ payload)%string with (String "," payload).
    by rewrite (split_at_first _ _ _ Hh), (split_without _ _ Hp).
  - by rewrite (split_without _ _ Hi).
Qed.

Lemma inline_data_of_request_witness :
  Wizard.occurs "," "data:image/jpeg;base64" = false ∧
  Wizard.occurs "," "AAAA" = false ∧
  Wizard.occurs "," "AAAA" = false ∧
  contents (classificationRequest sampleImage "fruits" "Conv2D") =
    PartsContents
      [TextPart (classificationPrompt "fruits" "Conv2D");
       InlineDataPart "image/jpeg" (Some "AAAA"%string)] ∧
  contents (classificationRequest "AAAA" "fruits" "Conv2D") =
    PartsContents
      [TextPart (classificationPrompt "fruits" "Conv2D");
       InlineDataPart "image/jpeg" None].
Proof.
  split; [reflexivity|]. split; [reflexivity|]. split; [reflexivity|].
  apply (inline_data_of_request "data:image/jpeg;base64" "AAAA" "AAAA"
           "fruits" "Conv2D"); reflexivity.
Defined.

Context {Cause : Type}.
Implicit Types (rt : Runtime Cause) (tr : Trace Cause).

(** X21. Whatever the service and [JSON.parse] do, [analyzeClassification]
    sends exactly one request, and it writes on the console exactly when
    it fails: one line, holding the error it throws. [generateFinalReport]
    sends exactly one request and never writes on the console. *)
Theorem one_request_and_a_log_on_failure
    rt (imageData dataset architecture summary : string) tr :
  requests (analyzeClassification rt imageData dataset architecture tr).2 =
    requests tr ++ [classificationRequest imageData dataset architecture] ∧
  console (analyzeClassification rt imageData dataset architecture tr).2 =
    console tr ++
      match (analyzeClassification rt imageData dataset architecture tr).1 with
      | Fulfilled _ => []
      | Rejected e => [("Gemini Classification Error:"%string, e)]
      end ∧
  requests (generateFinalReport rt summary tr).2 =
    requests tr ++ [reportRequest summary] ∧
  console (generateFinalReport rt summary tr).2 = console tr.
Proof.
  rewrite analyzeClassification_settles, generateFinalReport_settles.
  cbv zeta.
  destruct (generateContent rt (getAI rt) (length (requests tr))
              (classificationRequest imageData dataset architecture))
    as [r|c];
    [destruct (JSON_parse rt (text r))|];
    destruct (generateContent rt (getAI rt) (length (requests tr))
                (reportRequest summary));
    simpl; by rewrite ?app_nil_r.
Qed.

End GatewayRequests.

(** ** The prediction panel *)

Section PredictionPanel.
Import Gateway Wizard.

Lemma hasField_Some (k : string) (fields : list (string * json)) :
  hasField k fields = true → ∃ v, getField k fields = Some v.
Proof.
  unfold hasField. intros H%bool_decide_eq_true. by destruct H as [v Hv]; exists v.
Qed.

(** X22. A prediction that conforms to the declared response shape is
    rendered with its features, which are strings. A prediction that is an
    object without a member [features], which [analyzeClassification]
    returns like any other, makes [prediction.features.map] throw. *)
Theorem panel_of_conforming_prediction (v : json) :
  (conforms classificationSchema v = true →
   ∃ items : list json,
     predictionPanel (Some v) = Some (Some items) ∧
     Forall (λ item, ∃ s : string, item = JString s) items) ∧
  (∀ fields : list (string * json),
     v = JObject fields → getField "features" fields = None →
     predictionPanel (Some v) = Some None).
Proof.
  split.
  - destruct v as [| | | | |fields]; simpl; try discriminate.
    intros [Hreq Hprops]%andb_prop.
    repeat (apply andb_prop in Hreq as [? Hreq]).
    repeat (apply andb_prop in Hprops as [? Hprops]).
    match goal with H : hasField "features" fields = true |- _ =>
      destruct (hasField_Some _ _ H) as [fv Hfv] end.
    match goal with H : match getField "features" fields with _ => _ end = true
      |- _ => rewrite Hfv in H; simpl in H; rename H into Hconf end.
    rewrite Hfv. destruct fv as [| | | |items|]; try discriminate Hconf.
    exists items. split; [done|].
    pose proof (proj1 (forallb_forall _ items) Hconf) as Hall.
    apply Forall_forall.
    intros item Hin%list_elem_of_In. specialize (Hall item Hin).
    destruct item; try discriminate Hall. by eexists.
  - intros fields -> Hnone. simpl. by rewrite Hnone.
Qed.

Lemma panel_of_conforming_prediction_witness :
  conforms classificationSchema catValue = true ∧
  predictionPanel (Some catValue) =
    Some (Some [JString "fur texture"; JString "pointed ears";
                JString "whiskers"]) ∧
  getField "features"
    [("label", JString "cat"); ("confidence", JNumber 0.87);
     ("explanation", JString "...")] = None ∧
  predictionPanel (Some noFeaturesValue) = Some None.
Proof.
  destruct (panel_of_conforming_prediction noFeaturesValue) as [_ H].
  split; [reflexivity|]. split; [reflexivity|]. split; [reflexivity|].
  exact (H _ eq_refl eq_refl).
Defined.

End PredictionPanel.
